(** * choices-e2e-audit: report summarizer, JUnit renderer and RLS smoke check

  A shallow embedding of
    - [choices_e2e_audit/report.py]  ([summarize_playwright_json],
      [write_junit_xml]) and
    - [scripts/rls_smoke.py]         ([fetch], [try_fetch], [main])
  together with the properties stated about them. *)

From Stdlib Require Import ZArith NArith List Bool Lia Ascii String.
From Stdlib Require Import Numbers.DecimalString.
From Stdlib Require Import Floats.SpecFloat.
Import ListNotations.

Local Open Scope string_scope.
Local Open Scope list_scope.

(* ================================================================== *)
(** * Python helpers *)
(* ================================================================== *)

Module Py.

(** Truth value of a [str]: the empty string is falsy. *)
Definition truthy (s : string) : bool :=
  match s with EmptyString => false | String _ _ => true end.

(** [x or d] where [x] is a [str] or [None]. *)
Definition or_else (x : option string) (d : string) : string :=
  match x with
  | Some s => if truthy s then s else d
  | None => d
  end.

(** [d.get(k, default)] for an optional key. *)
Definition get {A : Type} (x : option A) (default : A) : A :=
  match x with Some v => v | None => default end.

(** A [str] is held as its UTF-8 bytes, one [ascii] for each byte.
    [utf8 c] is the encoding of the code point [c]. *)
Definition byte (n : N) : ascii := ascii_of_N n.

Definition utf8 (c : N) : string :=
  if (c <? 128)%N then
    String (byte c) ""
  else if (c <? 2048)%N then
    String (byte (192 + c / 64))
      (String (byte (128 + c mod 64)) "")
  else if (c <? 65536)%N then
    String (byte (224 + c / 4096))
      (String (byte (128 + (c / 64) mod 64))
         (String (byte (128 + c mod 64)) ""))
  else
    String (byte (240 + c / 262144))
      (String (byte (128 + (c / 4096) mod 64))
         (String (byte (128 + (c / 64) mod 64))
            (String (byte (128 + c mod 64)) ""))).

(** The code points for which [str.isspace] holds, at which [str.split]
    cuts: TAB, LF, VT, FF, CR, the separators FS, GS, RS, US, SPACE, NEL
    (U+0085), NBSP (U+00A0), U+1680, U+2000 to U+200A, U+2028, U+2029,
    U+202F, U+205F and U+3000. *)
Definition whitespace : list N :=
  [9; 10; 11; 12; 13; 28; 29; 30; 31; 32; 133; 160; 5760;
   8192; 8193; 8194; 8195; 8196; 8197; 8198; 8199; 8200; 8201; 8202;
   8232; 8233; 8239; 8287; 12288]%N.

(** [str.isspace] on one character, given as its code point. *)
Definition isspace (c : N) : bool := existsb (N.eqb c) whitespace.

(** [s.startswith(p)]. *)
Fixpoint startswith (p s : string) : bool :=
  match p with
  | EmptyString => true
  | String a p' =>
      match s with
      | EmptyString => false
      | String b s' => Ascii.eqb a b && startswith p' s'
      end
  end.

(** The number of bytes of the white space character that [s] starts
    with, 0 when it starts with none. *)
Definition space_length (s : string) : nat :=
  fold_right
    (fun w n => if startswith (utf8 w) s then String.length (utf8 w) else n)
    0 whitespace.

(** [s.split()] without argument: the maximal runs of characters that
    are no white space, in order.  [cur] is the run being read and [skip]
    the number of bytes left of the white space character being passed. *)
Fixpoint split_from (skip : nat) (cur : string) (s : string) : list string :=
  match s with
  | EmptyString => if truthy cur then [cur] else []
  | String b s' =>
      match skip with
      | S k => split_from k cur s'
      | O =>
          match space_length s with
          | S k =>
              if truthy cur then cur :: split_from k "" s'
              else split_from k "" s'
          | O => split_from O (cur ++ String b "")%string s'
          end
      end
  end.

Definition split (s : string) : list string := split_from 0 "" s.

(** [sep.join(parts)]. *)
Definition join (sep : string) (parts : list string) : string :=
  String.concat sep parts.

(** [str(n)] for an [int]. *)
Definition str (n : Z) : string := NilZero.string_of_int (Z.to_int n).

End Py.

(* ================================================================== *)
(** * The Playwright result tree (the parsed JSON report) *)
(* ================================================================== *)

(** A key read with [.get(k)] or [.get(k, default)] is an [option]; a key
  holding a list that is read with [.get(k, [])] and iterated is the
  list itself, an absent key being the empty list. *)

Record Attachment := mkAttachment {
  att_name : option string;
  att_body : option string
}.

Record Result := mkResult {
  res_status      : option string;
  res_duration    : option Z;
  res_attachments : list Attachment
}.

Record Test := mkTest { test_results : list Result }.

Record Spec := mkSpec {
  spec_title     : option string;
  spec_titlePath : option (list string);
  spec_tests     : list Test
}.

#[warnings="-register-all"]
Inductive Suite := mkSuite {
  suite_specs  : list Spec;
  suite_suites : list Suite
}.

Record Report := mkReport { report_suites : list Suite }.

(** Induction over suites that reaches the nested ones. *)
Section SuiteInd.
Variable P : Suite -> Prop.
Hypothesis Hnode :
  forall specs subs, Forall P subs -> P (mkSuite specs subs).

Fixpoint Suite_nested_ind (s : Suite) : P s :=
  match s with
  | mkSuite specs subs =>
      Hnode specs subs
        ((fix go (l : list Suite) : Forall P l :=
            match l with
            | [] => Forall_nil P
            | x :: r => Forall_cons x (Suite_nested_ind x) (go r)
            end) subs)
  end.
End SuiteInd.

(* ================================================================== *)
(** * The summary *)
(* ================================================================== *)

(** An entry of [summary["specs"]]. *)
Record SpecRecord := mkSpecRecord {
  sr_title       : string;
  sr_duration_ms : Z;
  sr_status      : string
}.

(** An entry of [summary["failures"]]. *)
Record FailureRecord := mkFailureRecord {
  fr_title       : string;
  fr_duration_ms : Z;
  fr_error       : option string
}.

(** The dict returned by [summarize_playwright_json]; while the walk runs
  it is the tuple of [nonlocal] variables of [walk_suites]. *)
Record Summary := mkSummary {
  total    : Z;
  passed   : Z;
  failed   : Z;
  skipped  : Z;
  specs    : list SpecRecord;
  failures : list FailureRecord
}.

Definition empty_summary : Summary := mkSummary 0 0 0 0 [] [].

(* ================================================================== *)
(** * [summarize_playwright_json] *)
(* ================================================================== *)

Module Summarizer.

(** Line 20: [" ".join(spec.get("titlePath", spec.get("title", "").split()))]. *)
Definition spec_title_of (spec : Spec) : string :=
  Py.join " "
    (Py.get (spec_titlePath spec) (Py.split (Py.get (spec_title spec) ""))).

(** Lines 36 and 43: [spec_title or spec.get("title", "")]. *)
Definition display_title (spec : Spec) : string :=
  if Py.truthy (spec_title_of spec)
  then spec_title_of spec
  else Py.get (spec_title spec) "".

(** Line 32: [a.get("name") == "error" and a.get("body")]. *)
Definition is_error_attachment (a : Attachment) : bool :=
  match att_name a with
  | Some n => (n =? "error") && Py.truthy (Py.get (att_body a) "")
  | None => false
  end.

(** Lines 30-34: the loop over the attachments, left at the first hit. *)
Fixpoint find_error (atts : list Attachment) : option string :=
  match atts with
  | [] => None
  | a :: rest =>
      if is_error_attachment a then att_body a else find_error rest
  end.

Definition status_is (status : option string) (s : string) : bool :=
  match status with Some x => x =? s | None => false end.

(** Line 40: [status in ("skipped", "timedOut", "interrupted")]. *)
Definition status_in_skipped (status : option string) : bool :=
  status_is status "skipped" || status_is status "timedOut"
  || status_is status "interrupted".

(** Lines 23-46: the body of the innermost loop, for one result [r] of
    the spec [spec]. *)
Definition visit_result (spec : Spec) (r : Result) (st : Summary) : Summary :=
  let status := res_status r in
  let duration_ms := Py.get (res_duration r) 0%Z in
  let st := mkSummary (total st + 1) (passed st) (failed st) (skipped st)
                      (specs st) (failures st) in
  let st :=
    if status_is status "passed" then
      mkSummary (total st) (passed st + 1) (failed st) (skipped st)
                (specs st) (failures st)
    else if status_is status "failed" then
      let err := find_error (res_attachments r) in
      mkSummary (total st) (passed st) (failed st + 1) (skipped st)
                (specs st)
                (failures st ++
                   [mkFailureRecord (display_title spec) duration_ms err])
    else if status_in_skipped status then
      mkSummary (total st) (passed st) (failed st) (skipped st + 1)
                (specs st) (failures st)
    else st in
  mkSummary (total st) (passed st) (failed st) (skipped st)
            (specs st ++
               [mkSpecRecord (display_title spec) duration_ms
                             (Py.or_else status "unknown")])
            (failures st).

(** Line 22: [for r in t.get("results", [])]. *)
Definition visit_test (spec : Spec) (t : Test) (st : Summary) : Summary :=
  fold_left (fun acc r => visit_result spec r acc) (test_results t) st.

(** Lines 20-21: [for t in spec.get("tests", [])]. *)
Definition visit_spec (spec : Spec) (st : Summary) : Summary :=
  fold_left (fun acc t => visit_test spec t acc) (spec_tests spec) st.

(** Lines 18-47: one turn of [for s in suites]: the specs of [s], then
    the recursive call on its nested suites. *)
Fixpoint visit_suite (s : Suite) (st : Summary) : Summary :=
  match s with
  | mkSuite sp subs =>
      let st := fold_left (fun acc spec => visit_spec spec acc) sp st in
      fold_left (fun acc s' => visit_suite s' acc) subs st
  end.

(** Lines 14-47.  [if not suites: return] is the empty fold. *)
Definition walk_suites (suites : list Suite) (st : Summary) : Summary :=
  fold_left (fun acc s => visit_suite s acc) suites st.

(** Lines 9-57, on the parsed report. *)
Definition summarize_playwright_json (data : Report) : Summary :=
  walk_suites (report_suites data) empty_summary.

End Summarizer.

(* ================================================================== *)
(** * Exceptions *)
(* ================================================================== *)

(** [urllib.error.HTTPError]: the status code and the reason phrase. *)
Record http_error := mkHttpError {
  code : Z;
  msg  : string
}.

(** The exceptions that the modelled code can meet. *)
Inductive exn :=
| HTTPError (e : http_error)
| URLError (reason : string)
| TimeoutError
| JSONDecodeError
| UnicodeDecodeError
| AttributeError
| OverflowError
| ZeroDivisionError.

(** A computation that returns a value or raises. *)
Inductive result (A : Type) :=
| Return (a : A)
| Raise (e : exn).

Arguments Return {A} a.
Arguments Raise {A} e.

Module Result.

Definition bind {A B : Type} (m : result A) (k : A -> result B) : result B :=
  match m with
  | Return a => k a
  | Raise e => Raise e
  end.

(** A comprehension or loop whose body may raise: the first exception
    ends it. *)
Fixpoint mapM {A B : Type} (f : A -> result B) (l : list A)
  : result (list B) :=
  match l with
  | [] => Return []
  | x :: rest =>
      bind (f x) (fun y => bind (mapM f rest) (fun ys => Return (y :: ys)))
  end.

End Result.

(* ================================================================== *)
(** * Floats: [int / int] and [format(x, ".3f")] *)
(* ================================================================== *)

Module PyFloat.

(** A finite binary64 value [(-1)^neg * mant * 2^expo], [0 <= mant]. *)
Record t := mk {
  neg  : bool;
  mant : Z;
  expo : Z
}.

(** [n / d] rounded to the nearest integer, ties to the even one
    ([0 <= n], [0 < d]). *)
Definition div_rne (n d : Z) : Z :=
  let q := (n / d)%Z in
  let r := (n mod d)%Z in
  match (2 * r ?= d)%Z with
  | Lt => q
  | Gt => (q + 1)%Z
  | Eq => if Z.even q then q else (q + 1)%Z
  end.

(** The exponent [e] at which [n / (d * 2^e)] lies in [[2^52, 2^53)],
    bounded below by the exponent of the subnormal numbers. *)
Definition quotient_exponent (n d : Z) : Z :=
  let ln := Z.log2 n in
  let ld := Z.log2 d in
  let e0 := (ln - ld - 52)%Z in
  let e1 := if (n * 2 ^ ld <? d * 2 ^ ln)%Z then (e0 - 1)%Z else e0 in
  Z.max e1 (-1074).

(** [a / b] on two [int]s: the exact quotient, correctly rounded to
    binary64; [OverflowError] when it is too large for a float. *)
Definition int_true_div (a b : Z) : result t :=
  if (b =? 0)%Z then Raise ZeroDivisionError
  else if (a =? 0)%Z then Return (mk (b <? 0)%Z 0 0)
  else
    let n := Z.abs a in
    let d := Z.abs b in
    let e := quotient_exponent n d in
    let m := div_rne (n * 2 ^ Z.max 0 (- e)) (d * 2 ^ Z.max 0 e) in
    if (2 ^ 1024 <=? m * 2 ^ Z.max 0 e)%Z then Raise OverflowError
    else Return (mk (xorb (a <? 0)%Z (b <? 0)%Z) m e).

Definition digit (n : Z) : ascii := ascii_of_nat (48 + Z.to_nat n).

Definition digits3 (r : Z) : string :=
  String (digit (r / 100))
    (String (digit (r / 10 mod 10)) (String (digit (r mod 10)) "")).

(** [abs(x) * 1000] rounded to the nearest integer, ties to even. *)
Definition thousandths (x : t) : Z :=
  if (0 <=? expo x)%Z then (mant x * 1000 * 2 ^ expo x)%Z
  else div_rne (mant x * 1000) (2 ^ (- expo x)).

(** [f"{x:.3f}"]: sign, integer part, a point, three digits. *)
Definition format_3f (x : t) : string :=
  let n := thousandths x in
  ((if neg x then "-" else "")
     ++ Py.str (n / 1000) ++ "." ++ digits3 (n mod 1000))%string.

End PyFloat.

(* ================================================================== *)
(** * [write_junit_xml] *)
(* ================================================================== *)

Module Junit.

(** An [xml.etree.ElementTree.Element]. *)
#[warnings="-register-all"]
Inductive Element := mkElement {
  tag      : string;
  attrib   : list (string * string);
  text     : option string;
  children : list Element
}.

(** [elem.get(key)]. *)
Fixpoint attr (key : string) (attrs : list (string * string))
  : option string :=
  match attrs with
  | [] => None
  | (k, v) :: rest => if k =? key then Some v else attr key rest
  end.

(** Lines 74-77: the loop over [summary["failures"]], left at the first
    entry of that title; [msg] is the message so far. *)
Fixpoint failure_message (fs : list FailureRecord) (title : string)
  (msg : string) : string :=
  match fs with
  | [] => msg
  | f :: rest =>
      if fr_title f =? title then Py.or_else (fr_error f) msg
      else failure_message rest title msg
  end.

(** Lines 68-80: the [testcase] child of one [specs] entry. *)
Definition testcase (summary : Summary) (spec : SpecRecord)
  : result Element :=
  Result.bind (PyFloat.int_true_div (sr_duration_ms spec) 1000) (fun secs =>
  let attrs := [("name", sr_title spec); ("time", PyFloat.format_3f secs)] in
  if sr_status spec =? "failed" then
    let msg := failure_message (failures summary) (sr_title spec)
                               "Test failed" in
    Return (mkElement "testcase" attrs None
              [mkElement "failure" [("message", msg)] (Some msg) []])
  else if sr_status spec =? "skipped" then
    Return (mkElement "testcase" attrs None
              [mkElement "skipped" [] None []])
  else
    Return (mkElement "testcase" attrs None [])).

(** Lines 60-80: the element tree that line 81 serialises into [dest].
    [utcnow] is [datetime.datetime.utcnow().isoformat()]. *)
Definition write_junit_xml (utcnow : string) (summary : Summary)
  : result Element :=
  Result.bind (Result.mapM (testcase summary) (specs summary)) (fun tcs =>
  Return (mkElement "testsuite"
            [("name", "choices-e2e");
             ("tests", Py.str (total summary));
             ("failures", Py.str (failed summary));
             ("skipped", Py.str (skipped summary));
             ("timestamp", (utcnow ++ "Z")%string)]
            None tcs)).

End Junit.

(* ================================================================== *)
(** * [scripts/rls_smoke.py] *)
(* ================================================================== *)

Module Rls.

(** A value returned by [json.loads]; [JNull] is [None]. *)
#[warnings="-register-all"]
Inductive json :=
| JNull
| JBool (b : bool)
| JInt (n : Z)
| JFloat (m e : Z)
| JStr (s : string)
| JList (items : list json)
| JDict (items : list (string * json)).

(** [key in d] and [d.get(key)] on the items of a dict. *)
Fixpoint dict_has (key : string) (items : list (string * json)) : bool :=
  match items with
  | [] => false
  | (k, _) :: rest => (k =? key) || dict_has key rest
  end.

Fixpoint dict_get (key : string) (items : list (string * json)) : json :=
  match items with
  | [] => JNull
  | (k, v) :: rest => if k =? key then v else dict_get key rest
  end.

(** [v == s] for a string literal [s]. *)
Definition eq_str (v : json) (s : string) : bool :=
  match v with JStr x => x =? s | _ => false end.

(** Lines 13-17: the environment variables. *)
Record Env := mkEnv {
  SUPABASE_URL              : option string;
  SUPABASE_ANON_KEY         : option string;
  SUPABASE_SERVICE_ROLE_KEY : option string;
  RLS_TABLE                 : option string;
  RLS_SELECT                : option string
}.

Definition URL (env : Env) : option string := SUPABASE_URL env.
Definition ANON (env : Env) : option string := SUPABASE_ANON_KEY env.
Definition SR (env : Env) : option string := SUPABASE_SERVICE_ROLE_KEY env.
Definition TABLE (env : Env) : string := Py.get (RLS_TABLE env) "polls".
Definition SELECT (env : Env) : string :=
  Py.get (RLS_SELECT env) "id,privacy_level".

(** Truth value of a [str] or [None]. *)
Definition is_set (x : option string) : bool :=
  match x with Some s => Py.truthy s | None => false end.

(** Line 39: [f"{URL}/rest/v1/{TABLE}?select={SELECT}"]. *)
Definition endpoint (env : Env) : string :=
  (Py.get (URL env) "" ++ "/rest/v1/" ++ TABLE env
     ++ "?select=" ++ SELECT env)%string.

Inductive stream := Stdout | Stderr.

(** What the script has done so far: the number of requests sent and
    the lines printed. *)
Record World := mkWorld {
  requests : nat;
  output   : list (stream * string)
}.

Definition start : World := mkWorld 0 [].

(** A statement of the script: it changes the world and returns or
    raises. *)
Definition M (A : Type) : Type := World -> result A * World.

Definition ret {A : Type} (a : A) : M A := fun w => (Return a, w).

Definition bind {A B : Type} (m : M A) (k : A -> M B) : M B :=
  fun w =>
    match m w with
    | (Return a, w') => k a w'
    | (Raise e, w') => (Raise e, w')
    end.

Definition print (s : stream) (line : string) : M unit :=
  fun w => (Return tt, mkWorld (requests w) (output w ++ [(s, line)])).

(** [str(e)] for an [HTTPError]. *)
Definition str_http_error (e : http_error) : string :=
  ("HTTP Error " ++ Py.str (code e) ++ ": " ++ msg e)%string.

Section Script.

(** The network: what [urlopen], [read], [decode] and [json.loads] make
    of the [n]-th request of the run, sent to [url] with [key]: the
    decoded rows, or the exception raised on the way. *)
Variable network : nat -> string -> string -> result json.

(** Lines 19-26. *)
Definition fetch (url key : string) : M json :=
  fun w =>
    (network (requests w) url key, mkWorld (S (requests w)) (output w)).

(** Lines 28-32: only [HTTPError] is caught. *)
Definition try_fetch (url key : string) : M (json * option http_error) :=
  fun w =>
    match fetch url key w with
    | (Return data, w') => (Return (data, None), w')
    | (Raise (HTTPError e), w') => (Return (JNull, Some e), w')
    | (Raise e, w') => (Raise e, w')
    end.

(** [len(data) if isinstance(data, list) else 0]. *)
Definition row_count (data : json) : nat :=
  match data with JList rows => List.length rows | _ => 0 end.

(** Line 66: [[r for r in anon_data if r.get("privacy_level") == "private"]];
    a row without [get] raises. *)
Fixpoint private_rows (rows : list json) : result (list json) :=
  match rows with
  | [] => Return []
  | r :: rest =>
      match r with
      | JDict items =>
          Result.bind (private_rows rest) (fun ps =>
          if eq_str (dict_get "privacy_level" items) "private"
          then Return (r :: ps) else Return ps)
      | _ => Raise AttributeError
      end
  end.

Definition lift {A : Type} (r : result A) : M A := fun w => (r, w).

(** Line 65: [anon_count and isinstance(anon_data[0], dict) and
    "privacy_level" in anon_data[0]]. *)
Definition first_row_has_privacy_level (data : json) : bool :=
  match data with
  | JList (JDict items :: _) => dict_has "privacy_level" items
  | _ => false
  end.

Definition rows_of (data : json) : list json :=
  match data with JList rows => rows | _ => [] end.

(** Lines 43-72: what [main] makes of the two answers. *)
Definition verdict (anon sr : json * option http_error) : M Z :=
  let '(anon_data, anon_err) := anon in
  let '(sr_data, sr_err) := sr in
  match sr_err with
  | Some e =>
      bind (print Stderr
              ("[FAIL] service_role request failed: "
                 ++ str_http_error e)%string)
        (fun _ => ret 1%Z)
  | None =>
  match anon_err with
  | Some e =>
      if ((code e =? 401) || (code e =? 403))%Z then
        bind (print Stdout
                "[OK] anon blocked by RLS; service_role succeeded.")
          (fun _ => ret 0%Z)
      else
        bind (print Stderr
                ("[WARN] anon request unexpected error: "
                   ++ str_http_error e)%string)
          (fun _ => ret 0%Z)
  | None =>
      let anon_count := row_count anon_data in
      let sr_count := row_count sr_data in
      if (sr_count <? anon_count)%nat then
        bind (print Stderr
                ("[FAIL] anon sees more rows ("
                   ++ Py.str (Z.of_nat anon_count)
                   ++ ") than service_role ("
                   ++ Py.str (Z.of_nat sr_count) ++ ")")%string)
          (fun _ => ret 1%Z)
      else
        let ok :=
          bind (print Stdout
                  ("[OK] RLS smoke: anon_count="
                     ++ Py.str (Z.of_nat anon_count)
                     ++ ", service_role_count="
                     ++ Py.str (Z.of_nat sr_count))%string)
            (fun _ => ret 0%Z) in
        if first_row_has_privacy_level anon_data then
          bind (lift (private_rows (rows_of anon_data))) (fun privates =>
          match privates with
          | _ :: _ =>
              bind (print Stderr
                      ("[FAIL] anon sees private rows: "
                         ++ Py.str (Z.of_nat (List.length privates)))%string)
                (fun _ => ret 1%Z)
          | [] => ok
          end)
        else ok
  end
  end.

(** Lines 34-72. *)
Definition main (env : Env) : M Z :=
  if negb (is_set (URL env) && is_set (ANON env) && is_set (SR env)) then
    bind (print Stderr "Missing SUPABASE_URL/ANON_KEY/SERVICE_ROLE_KEY")
      (fun _ => ret 2%Z)
  else
    bind (try_fetch (endpoint env) (Py.get (ANON env) "")) (fun anon =>
    bind (try_fetch (endpoint env) (Py.get (SR env) "")) (fun sr =>
    verdict anon sr)).

(** Line 75, [sys.exit(main())] run from the start: the exit status of
    the process.  An exception that nothing catches ends the interpreter
    with a traceback and status 1. *)
Definition exit_status (r : result Z) : Z :=
  match r with
  | Return c => c
  | Raise _ => 1%Z
  end.

Definition run (env : Env) : result Z * World := main env start.

End Script.

End Rls.

(* ================================================================== *)
(** * [write_markdown] *)
(* ================================================================== *)

Module Markdown.

(** The line feed, written [\n] in the source. *)
Definition nl : string := String (ascii_of_nat 10) "".

(** Line 85. *)
Definition title_line : string := ("# E2E Audit Summary" ++ nl)%string.

(** Line 86. *)
Definition counters_line (summary : Summary) : string :=
  ("- **Total:** " ++ Py.str (total summary) ++ "  " ++ nl
   ++ "- **Passed:** " ++ Py.str (passed summary) ++ "  " ++ nl
   ++ "- **Failed:** " ++ Py.str (failed summary) ++ "  " ++ nl
   ++ "- **Skipped:** " ++ Py.str (skipped summary) ++ nl)%string.

(** Line 88. *)
Definition failures_heading : string := ("## Failures" ++ nl)%string.

(** Lines 90-92: the lines of one failure. *)
Definition failure_lines (f : FailureRecord) : list string :=
  ("- **" ++ fr_title f ++ "** (" ++ Py.str (fr_duration_ms f)
     ++ " ms)" ++ nl)%string
  :: match fr_error f with
     | Some e =>
         if Py.truthy e
         then [("  - Error: `" ++ e ++ "`" ++ nl)%string]
         else []
     | None => []
     end.

(** Lines 84-92: the list [lines]. *)
Definition markdown_lines (summary : Summary) : list string :=
  [title_line; counters_line summary]
  ++ match failures summary with
     | [] => []
     | _ :: _ => failures_heading :: flat_map failure_lines (failures summary)
     end.

(** Lines 83-93: the text written to [dest]. *)
Definition write_markdown (summary : Summary) : string :=
  Py.join nl (markdown_lines summary).

End Markdown.

(* ================================================================== *)
(** * The orchestrator: [supabase_utils.py] and [cli.py] *)
(* ================================================================== *)

Module Os.

Inductive fd := Stdout | Stderr.

(** What is written into a file: a text, or the serialisation of an
    element tree. *)
Inductive content :=
| Text (s : string)
| Xml (e : Junit.Element).

(** What the process has done so far: the command lines given to a
    shell, the lines printed, the directories made and the files
    written, each in order. *)
Record World := mkWorld {
  executed : list string;
  printed  : list (fd * string);
  made     : list string;
  written  : list (string * content)
}.

Definition start : World := mkWorld [] [] [] [].

(** How a call ends: it returns, it raises [SystemExit], or it raises
    another exception. *)
Inductive outcome (A : Type) :=
| Done (a : A)
| SystemExit (code : Z)
| Uncaught (e : exn).

Arguments Done {A} a.
Arguments SystemExit {A} code.
Arguments Uncaught {A} e.

Definition M (A : Type) : Type := World -> outcome A * World.

Definition ret {A : Type} (a : A) : M A := fun w => (Done a, w).

Definition bind {A B : Type} (m : M A) (k : A -> M B) : M B :=
  fun w =>
    match m w with
    | (Done a, w') => k a w'
    | (SystemExit c, w') => (SystemExit c, w')
    | (Uncaught e, w') => (Uncaught e, w')
    end.

Definition print (f : fd) (line : string) : M unit :=
  fun w => (Done tt,
            mkWorld (executed w) (printed w ++ [(f, line)]) (made w)
                    (written w)).

Definition sys_exit {A : Type} (code : Z) : M A :=
  fun w => (SystemExit code, w).

Definition mkdir (dir : string) : M unit :=
  fun w => (Done tt,
            mkWorld (executed w) (printed w) (made w ++ [dir]) (written w)).

Definition write (dest : string) (c : content) : M unit :=
  fun w => (Done tt,
            mkWorld (executed w) (printed w) (made w)
                    (written w ++ [(dest, c)])).

(** [sub in s]. *)
Definition contains (sub s : string) : bool :=
  match index 0 sub s with Some _ => true | None => false end.

End Os.

Module SupabaseUtils.
Import Os.

Section Shell.

(** The return code of a command run through [subprocess.Popen] with
    [shell=True], after the command lines run before it. *)
Variable popen : list string -> string -> Z.

(** [supabase_utils.py], lines 4-8. *)
Definition run_shell (cmd : string) : M Z :=
  fun w =>
    (Done (popen (executed w) cmd),
     mkWorld (executed w ++ [cmd])
             (printed w ++ [(Stdout, ("$ " ++ cmd)%string)])
             (made w) (written w)).

(** [supabase_utils.py], lines 11-14: the loop over the steps. *)
Fixpoint run_each (steps : list string) : M unit :=
  match steps with
  | [] => ret tt
  | s :: rest =>
      bind (run_shell s) (fun code =>
      if (code =? 0)%Z then run_each rest else sys_exit code)
  end.

(** [supabase_utils.py], lines 10-14; [steps or []]. *)
Definition run_steps (steps : option (list string)) : M unit :=
  run_each (Py.get steps []).

End Shell.

End SupabaseUtils.

Module Cli.
Import Os.

(** The [playwright] mapping of the configuration. *)
Record Playwright := mkPlaywright {
  cmd : option string;
  cwd : option string
}.

(** The configuration document read by [yaml.safe_load]; [None] is a key
    that the document does not have. *)
Record Config := mkConfig {
  pre           : option (list string);
  playwright    : option Playwright;
  artifacts_dir : option string;
  post          : option (list string)
}.

Definition default_cmd : string := "npx playwright test --reporter=json".

(** Lines 10-19, [_default_config]. *)
Definition _default_config : Config :=
  mkConfig (Some []) (Some (mkPlaywright (Some default_cmd) (Some ".")))
           (Some "e2e-audit-artifacts") (Some []).

Definition or_key {A : Type} (new old : option A) : option A :=
  match new with Some v => Some v | None => old end.

(** [cfg.update(loaded)]: the keys of [loaded] replace those of [cfg]
    whole. *)
Definition update (cfg loaded : Config) : Config :=
  mkConfig (or_key (pre loaded) (pre cfg))
           (or_key (playwright loaded) (playwright cfg))
           (or_key (artifacts_dir loaded) (artifacts_dir cfg))
           (or_key (post loaded) (post cfg)).

(** U+2026, the ellipsis of lines 39 and 77, in UTF-8. *)
Definition ellipsis : string :=
  String (ascii_of_nat 226)
    (String (ascii_of_nat 128) (String (ascii_of_nat 166) "")).

Section Main.

Variable popen : list string -> string -> Z.

(** The value of [os.system] for a command line, after the command
    lines run before it. *)
Variable os_system : list string -> string -> Z.

(** [Path(s)] as the text it prints, and [p / name]. *)
Variable Path : string -> string.
Variable joinpath : string -> string -> string.

(** [p.exists()] after the command lines run so far. *)
Variable path_exists : list string -> string -> bool.

(** What [json.loads(Path(p).read_text())] gives after the command lines
    run so far: the report, or the exception raised. *)
Variable load_report : list string -> string -> result Report.

(** [datetime.datetime.utcnow().isoformat()]. *)
Variable utcnow : string.

Definition system (line : string) : M Z :=
  fun w =>
    (Done (os_system (executed w) line),
     mkWorld (executed w ++ [line]) (printed w) (made w) (written w)).

Definition exists_ (p : string) : M bool :=
  fun w => (Done (path_exists (executed w) p), w).

(** [report.py], lines 7-57, on the file at [p]. *)
Definition summarize_playwright_json (p : string) : M Summary :=
  fun w =>
    match load_report (executed w) p with
    | Return data => (Done (Summarizer.summarize_playwright_json data), w)
    | Raise e => (Uncaught e, w)
    end.

(** [report.py], lines 83-93. *)
Definition write_markdown (summary : Summary) (dest : string) : M unit :=
  write dest (Text (Markdown.write_markdown summary)).

(** [report.py], lines 59-81. *)
Definition write_junit_xml (summary : Summary) (dest : string) : M unit :=
  match Junit.write_junit_xml utcnow summary with
  | Return tree => write dest (Xml tree)
  | Raise e => fun w => (Uncaught e, w)
  end.

(** Lines 52-55: the command line given to [os.system]. *)
Definition playwright_line (command dir json_report : string) : string :=
  if contains "--reporter=" command && contains "json=" command
  then ("cd " ++ dir ++ " && " ++ command)%string
  else ("cd " ++ dir ++ " && " ++ command ++ "=" ++ json_report)%string.

(** Lines 27-32: the configuration in force; [config_file] is [None]
    when the file does not exist or holds nothing. *)
Definition effective (config_file : option Config) : Config :=
  match config_file with
  | Some loaded => update _default_config loaded
  | None => _default_config
  end.

(** Line 34. *)
Definition artifacts_of (cfg : Config) : string :=
  Path (Py.get (artifacts_dir cfg) "e2e-audit-artifacts").

(** Lines 37 and 75: [cfg.get(key) or []]. *)
Definition pre_of (cfg : Config) : list string := Py.get (pre cfg) [].
Definition post_of (cfg : Config) : list string := Py.get (post cfg) [].

(** Lines 43-45. *)
Definition command_of (cfg : Config) : string :=
  Py.get (cmd (Py.get (playwright cfg) (mkPlaywright None None)))
         default_cmd.

Definition dir_of (cfg : Config) : string :=
  Path (Py.get (cwd (Py.get (playwright cfg) (mkPlaywright None None)))
               ".").

(** Lines 49 and 60: where the report is looked for. *)
Definition report_path (cfg : Config) : string :=
  joinpath (artifacts_of cfg) "playwright-report.json".

Definition fallback_path (cfg : Config) : string :=
  joinpath (dir_of cfg) "playwright-report.json".

(** One list of steps, lines 37-40 and 75-78. *)
Definition run_phase (name : string) (steps : list string) : M unit :=
  match steps with
  | [] => ret tt
  | _ :: _ =>
      bind (print Stdout ("==> Running " ++ name ++ ellipsis)%string)
        (fun _ => SupabaseUtils.run_steps popen (Some steps))
  end.

(** Lines 59-66: the report file that is read. *)
Definition locate_report (cfg : Config) : M string :=
  bind (exists_ (report_path cfg)) (fun found =>
  if found then ret (report_path cfg)
  else
    bind (exists_ (fallback_path cfg)) (fun found' =>
    if found' then ret (fallback_path cfg)
    else
      bind (print Stderr "ERROR: Could not find Playwright JSON report.")
        (fun _ => sys_exit 2%Z))).

(** Lines 59-81: from the search of the report to the exit. *)
Definition aggregate (cfg : Config) : M unit :=
  bind (locate_report cfg) (fun json_report =>
  bind (summarize_playwright_json json_report) (fun summary =>
  bind (write_markdown summary (joinpath (artifacts_of cfg) "SUMMARY.md"))
    (fun _ =>
  bind (write_junit_xml summary (joinpath (artifacts_of cfg) "junit.xml"))
    (fun _ =>
  bind (print Stdout
          ("==> Summary: " ++ Py.str (passed summary) ++ "/"
             ++ Py.str (total summary) ++ " passed, "
             ++ Py.str (failed summary) ++ " failed, "
             ++ Py.str (skipped summary) ++ " skipped.")%string) (fun _ =>
  bind (print Stdout ("Artifacts in: " ++ artifacts_of cfg)%string) (fun _ =>
  bind (run_phase "post-steps" (post_of cfg)) (fun _ =>
  if (0 <? failed summary)%Z then sys_exit 1%Z else ret tt))))))).

(** Lines 21-81, from the configuration document on. *)
Definition main (config_file : option Config) : M unit :=
  let cfg := effective config_file in
  bind (mkdir (artifacts_of cfg)) (fun _ =>
  bind (run_phase "pre-steps" (pre_of cfg)) (fun _ =>
  bind (print Stdout
          ("==> Running Playwright: " ++ command_of cfg
             ++ " (cwd=" ++ dir_of cfg ++ ")")%string) (fun _ =>
  bind (system (playwright_line (command_of cfg) (dir_of cfg)
                                (report_path cfg))) (fun rc =>
  bind (if (rc =? 0)%Z then ret tt
        else print Stdout
               "Playwright exited with non-zero status (tests may have failed). Continuing to aggregate.")
    (fun _ => aggregate cfg))))).

End Main.

End Cli.

(* ================================================================== *)
(** * The result nodes of a tree *)
(* ================================================================== *)

(** The Result nodes below a spec, each with the spec it belongs to, in
    document order. *)
Definition spec_results (spec : Spec) : list (Spec * Result) :=
  flat_map (fun t => map (pair spec) (test_results t)) (spec_tests spec).

(** The Result nodes below a suite: those of its own specs, then those of
    its nested suites. *)
Fixpoint suite_results (s : Suite) : list (Spec * Result) :=
  match s with
  | mkSuite sp subs =>
      flat_map spec_results sp ++ flat_map suite_results subs
  end.

Definition report_results (data : Report) : list (Spec * Result) :=
  flat_map suite_results (report_suites data).

(** The number of Result nodes, counted along the tree. *)
Definition sum_of {A : Type} (f : A -> nat) (l : list A) : nat :=
  fold_right (fun x n => f x + n) 0 l.

Definition count_spec (spec : Spec) : nat :=
  sum_of (fun t => List.length (test_results t)) (spec_tests spec).

Fixpoint count_suite (s : Suite) : nat :=
  match s with
  | mkSuite sp subs => sum_of count_spec sp + sum_of count_suite subs
  end.

Definition count_results (data : Report) : nat :=
  sum_of count_suite (report_suites data).

(** The five statuses that fall in a pass/fail/skip bucket. *)
Definition bucket_statuses : list string :=
  ["passed"; "failed"; "skipped"; "timedOut"; "interrupted"].

Definition has_bucket (r : Result) : Prop :=
  exists s, res_status r = Some s /\ In s bucket_statuses.

Definition has_bucketb (r : Result) : bool :=
  match res_status r with
  | Some s => existsb (String.eqb s) bucket_statuses
  | None => false
  end.


(** The loop body, on a (spec, result) pair. *)
Definition visit_pair (st : Summary) (p : Spec * Result) : Summary :=
  Summarizer.visit_result (fst p) (snd p) st.

Definition is_passed (p : Spec * Result) : bool :=
  Summarizer.status_is (res_status (snd p)) "passed".
Definition is_failed (p : Spec * Result) : bool :=
  Summarizer.status_is (res_status (snd p)) "failed".
Definition is_skipped (p : Spec * Result) : bool :=
  Summarizer.status_in_skipped (res_status (snd p)).

Definition countZ {A : Type} (f : A -> bool) (l : list A) : Z :=
  Z.of_nat (List.length (filter f l)).

(** The record appended to [specs] for a result. *)
Definition spec_record_of (p : Spec * Result) : SpecRecord :=
  mkSpecRecord (Summarizer.display_title (fst p))
               (Py.get (res_duration (snd p)) 0%Z)
               (Py.or_else (res_status (snd p)) "unknown").

(** The record appended to [failures] for a failed result. *)
Definition failure_record_of (p : Spec * Result) : FailureRecord :=
  mkFailureRecord (Summarizer.display_title (fst p))
                  (Py.get (res_duration (snd p)) 0%Z)
                  (Summarizer.find_error (res_attachments (snd p))).

(* ================================================================== *)
(** * Vocabulary of the properties *)
(* ================================================================== *)

(** An attachment named "error" with a body that is not empty. *)
Definition error_attachment (a : Attachment) : Prop :=
  att_name a = Some "error"
  /\ exists b, att_body a = Some b /\ b <> "".

(** The title path joined, or else the title split on whitespace and
    joined again. *)
Definition title_candidate (spec : Spec) : string :=
  match spec_titlePath spec with
  | Some path => Py.join " " path
  | None => Py.join " " (Py.split (Py.get (spec_title spec) ""))
  end.

(** [str.encode("utf-8")] on the code points of a [str]: the bytes that
    hold the text. *)
Fixpoint encode (l : list N) : string :=
  match l with
  | [] => ""
  | c :: rest => (Py.utf8 c ++ encode rest)%string
  end.

(** A Unicode code point. *)
Definition code_point (c : N) : Prop := (c < 1114112)%N.

(** [str.split] without argument, on the code points of a text: the
    maximal runs of characters for which [str.isspace] does not hold. *)
Fixpoint split_points_from (cur : list N) (l : list N) : list (list N) :=
  match l with
  | [] => match cur with [] => [] | _ :: _ => [cur] end
  | c :: rest =>
      if Py.isspace c
      then match cur with
           | [] => split_points_from [] rest
           | _ :: _ => cur :: split_points_from [] rest
           end
      else split_points_from (cur ++ [c]) rest
  end.

Definition split_points (l : list N) : list (list N) :=
  split_points_from [] l.

(** No white space character starts inside [cur] when [s] follows it. *)
Fixpoint no_space_before (cur s : string) : bool :=
  match cur with
  | EmptyString => true
  | String _ cur' =>
      (Py.space_length (cur ++ s) =? 0)%nat && no_space_before cur' s
  end.

(** A string without white space. *)
Definition no_space (piece : string) : bool := no_space_before piece "".

(** The results of a report, without their specs. *)
Definition result_nodes (data : Report) : list Result :=
  map snd (report_results data).

Definition flaky_result : Result := mkResult (Some "flaky") (Some 7%Z) [].

Definition flaky_report : Report :=
  mkReport [mkSuite [mkSpec (Some "S") None [mkTest [flaky_result]]] []].



(** The binary64 number that a [PyFloat.t] stands for, and the IEEE 754
    division of two integers that binary64 holds exactly, both in the
    terms of the standard library's specification of floats. *)
Definition binary64_of (x : PyFloat.t) : spec_float :=
  binary_normalize 53 1024
    (if PyFloat.neg x then (- PyFloat.mant x)%Z else PyFloat.mant x)
    (PyFloat.expo x) (PyFloat.neg x).

Definition binary64_div (a b : Z) : spec_float :=
  SFdiv 53 1024 (binary_normalize 53 1024 a 0 false)
                (binary_normalize 53 1024 b 0 false).

Definition agrees_with_binary64 (a b : Z) : bool :=
  match PyFloat.int_true_div a b with
  | Return x => SFeqb (binary64_of x) (binary64_div a b)
  | Raise _ => false
  end.







(** The three required variables are set and not empty. *)
Definition configured (env : Rls.Env) : Prop :=
  Rls.is_set (Rls.URL env) = true
  /\ Rls.is_set (Rls.ANON env) = true
  /\ Rls.is_set (Rls.SR env) = true.

(** What the network makes of the restricted-credential request, the
    first of the run, and of the elevated-credential one, the second. *)
Definition restricted_response
  (network : nat -> string -> string -> result Rls.json) (env : Rls.Env)
  : result Rls.json :=
  network 0 (Rls.endpoint env) (Py.get (Rls.ANON env) "").

Definition elevated_response
  (network : nat -> string -> string -> result Rls.json) (env : Rls.Env)
  : result Rls.json :=
  network 1 (Rls.endpoint env) (Py.get (Rls.SR env) "").

(** The request was answered: by rows or by an HTTP error status. *)
Definition answered (r : result Rls.json) : Prop :=
  match r with
  | Return _ => True
  | Raise (HTTPError _) => True
  | Raise _ => False
  end.

(** An exception that is not an [HTTPError]: a timeout, a network
    error, a body that does not decode. *)
Definition not_http (e : exn) : Prop :=
  match e with HTTPError _ => False | _ => True end.

(** A row that is an object carrying the classification field. *)
Definition classified_row (r : Rls.json) : Prop :=
  exists items, r = Rls.JDict items
                /\ Rls.dict_has "privacy_level" items = true.

(** A row classified "private". *)
Definition private_row (r : Rls.json) : Prop :=
  exists items, r = Rls.JDict items
                /\ Rls.dict_get "privacy_level" items = Rls.JStr "private".

(* ================================================================== *)
(** * Sample inputs *)
(* ================================================================== *)

Definition sample_failed_result : Result :=
  mkResult (Some "failed") (Some 500%Z)
    [mkAttachment (Some "stdout") (Some "log");
     mkAttachment (Some "error") (Some "");
     mkAttachment (Some "error") (Some "boom");
     mkAttachment (Some "error") (Some "later")].

Definition sample_spec_b : Spec :=
  mkSpec (Some "Spec B") (Some ["e2e"; "Spec B"])
    [mkTest [sample_failed_result]].

Definition sample_spec_a : Spec :=
  mkSpec (Some "Spec A") (Some ["e2e"; "Spec A"])
    [mkTest [mkResult (Some "passed") (Some 1200%Z) []]].

(** The tree of [tests/test_report.py], nested one suite deeper for the
    second spec. *)
Definition sample_report : Report :=
  mkReport [mkSuite [sample_spec_a] [mkSuite [sample_spec_b] []]].

Definition untitled_spec : Spec :=
  mkSpec (Some "  Spec   C ") None [].

(** The code points of a title with an accent and an em space: "voil",
    U+00E0, U+2003, a space and "test". *)
Definition accented_title : list N :=
  [118; 111; 105; 108; 224; 8195; 32; 116; 101; 115; 116]%N.

Definition accented_spec : Spec :=
  mkSpec (Some (encode accented_title)) None [].


Definition sample_env : Rls.Env :=
  Rls.mkEnv (Some "https://db.example.org") (Some "anon-key")
            (Some "service-key") None None.

Definition row (id : Z) (level : string) : Rls.json :=
  Rls.JDict [("id", Rls.JInt id); ("privacy_level", Rls.JStr level)].

Definition sample_rows : Rls.json :=
  Rls.JList [row 1 "public"; row 2 "private"; row 3 "public"].

(** A network that answers the first request of a run with [first] and
    every later one with [later]. *)
Definition network_of (first later : result Rls.json)
  : nat -> string -> string -> result Rls.json :=
  fun n _ _ => match n with O => first | S _ => later end.

Definition http (status : Z) (reason : string) : exn :=
  HTTPError (mkHttpError status reason).

(* ================================================================== *)
(** * Vocabulary of the further properties *)
(* ================================================================== *)

(** Two summaries put end to end: counters added, records appended. *)
Definition add_summary (a b : Summary) : Summary :=
  mkSummary (total a + total b) (passed a + passed b)
            (failed a + failed b) (skipped a + skipped b)
            (specs a ++ specs b) (failures a ++ failures b).

(** The [specs] records of status "failed". *)
Definition failed_specs (s : Summary) : list SpecRecord :=
  filter (fun rec => sr_status rec =? "failed") (specs s).

(** The number of results whose status is one of [statuses]. *)
Definition count_status (statuses : list string) (rs : list Result) : Z :=
  Z.of_nat
    (List.length
       (filter (fun r => match res_status r with
                         | Some s => existsb (String.eqb s) statuses
                         | None => false
                         end) rs)).


(** The element has a child of that tag. *)
Definition has_child (name : string) (e : Junit.Element) : bool :=
  existsb (fun c => Junit.tag c =? name) (Junit.children e).

(** The empty [skipped] child. *)
Definition skipped_annotation : Junit.Element :=
  Junit.mkElement "skipped" [] None [].

(** The number of elements with a child of that tag. *)
Definition count_with_child (name : string) (l : list Junit.Element) : Z :=
  Z.of_nat (List.length (filter (has_child name) l)).

(** A duration whose quotient by 1000 is beyond the largest float. *)
Definition beyond_float (d : Z) : Prop := (1000 * 2 ^ 1024 <= Z.abs d)%Z.

Definition skipped_summary : Summary :=
  mkSummary 2 0 0 2
    [mkSpecRecord "A" 3 "skipped"; mkSpecRecord "B" 4 "timedOut"] [].

(** A report with a result of each skipped kind and a passed one. *)
Definition skipped_report : Report :=
  mkReport
    [mkSuite
       [mkSpec (Some "S") None
          [mkTest [mkResult (Some "skipped") (Some 0%Z) [];
                   mkResult (Some "timedOut") (Some 30000%Z) [];
                   mkResult (Some "interrupted") None [];
                   mkResult (Some "passed") (Some 12%Z) []]]]
       []].

Definition overflowing_summary : Summary :=
  mkSummary 2 2 0 0
    [mkSpecRecord "quick" 12 "passed";
     mkSpecRecord "endless" (2 ^ 1034) "passed"]
    [].

(** If the first row is an object, it does not carry the field. *)
Definition first_row_unclassified (data : Rls.json) : Prop :=
  forall items rest,
    data = Rls.JList (Rls.JDict items :: rest) ->
    Rls.dict_has "privacy_level" items = false.

(** A row that is no object. *)
Definition not_object (r : Rls.json) : Prop :=
  forall items, r <> Rls.JDict items.

(** The line printed when the checks pass. *)
Definition ok_line (anon_data sr_data : Rls.json) : Rls.stream * string :=
  (Rls.Stdout,
   ("[OK] RLS smoke: anon_count="
      ++ Py.str (Z.of_nat (Rls.row_count anon_data))
      ++ ", service_role_count="
      ++ Py.str (Z.of_nat (Rls.row_count sr_data)))%string).

(** What a finished run has printed, by exit code: nothing else is
    printed. *)
Definition report_line (c : Z) (out : list (Rls.stream * string)) : Prop :=
  exists line,
    (c = 0%Z /\ (out = [(Rls.Stdout, line)] /\ prefix "[OK]" line = true
                 \/ out = [(Rls.Stderr, line)]
                    /\ prefix "[WARN]" line = true))
    \/ (c = 1%Z /\ out = [(Rls.Stderr, line)]
        /\ prefix "[FAIL]" line = true)
    \/ (c = 2%Z /\ out = [(Rls.Stderr, line)]
        /\ prefix "Missing" line = true).

Definition unclassified_rows : Rls.json :=
  Rls.JList [Rls.JDict [("id", Rls.JInt 1)]; row 2 "private"].

Definition mixed_rows : Rls.json :=
  Rls.JList [row 1 "public"; Rls.JInt 2].

Definition public_rows : Rls.json :=
  Rls.JList [row 1 "public"; row 3 "friends"].

(** The line that [run_shell] prints for a command. *)
Definition echo (cmd : string) : Os.fd * string :=
  (Os.Stdout, ("$ " ++ cmd)%string).

(** Every step returns 0 when its turn comes, after [history] and the
    steps before it. *)
Definition all_succeed (popen : list string -> string -> Z)
  (history steps : list string) : Prop :=
  forall k, k < List.length steps ->
            popen (history ++ firstn k steps) (nth k steps "") = 0%Z.

(** The step of index [k] is the first that does not return 0, and
    returns [code]. *)
Definition fails_at (popen : list string -> string -> Z)
  (history steps : list string) (k : nat) (code : Z) : Prop :=
  k < List.length steps
  /\ (forall j, j < k ->
                popen (history ++ firstn j steps) (nth j steps "") = 0%Z)
  /\ popen (history ++ firstn k steps) (nth k steps "") = code
  /\ code <> 0%Z.

(** What a phase prints when its first [n] steps are run. *)
Definition phase_lines (name : string) (steps : list string) (n : nat)
  : list (Os.fd * string) :=
  match steps with
  | [] => []
  | _ :: _ =>
      (Os.Stdout, ("==> Running " ++ name ++ Cli.ellipsis)%string)
      :: map echo (firstn n steps)
  end.

(** A run of [cli.main]: the oracles it is given. *)
Record Machine := mkMachine {
  m_popen       : list string -> string -> Z;
  m_os_system   : list string -> string -> Z;
  m_Path        : string -> string;
  m_joinpath    : string -> string -> string;
  m_path_exists : list string -> string -> bool;
  m_load_report : list string -> string -> result Report;
  m_utcnow      : string
}.

Definition run_main (m : Machine) (config_file : option Cli.Config)
  : Os.outcome unit * Os.World :=
  Cli.main (m_popen m) (m_os_system m) (m_Path m) (m_joinpath m)
           (m_path_exists m) (m_load_report m) (m_utcnow m)
           config_file Os.start.

(** Lines 59-81 on a machine. *)
Definition aggregate_m (m : Machine) (cfg : Cli.Config) : Os.M unit :=
  Cli.aggregate (m_popen m) (m_Path m) (m_joinpath m) (m_path_exists m)
                (m_load_report m) (m_utcnow m) cfg.

(** The command line of the test run, and the command lines run when the
    report is looked for. *)
Definition test_line (m : Machine) (cfg : Cli.Config) : string :=
  Cli.playwright_line (Cli.command_of cfg) (Cli.dir_of (m_Path m) cfg)
    (Cli.report_path (m_Path m) (m_joinpath m) cfg).

Definition history_after_test (m : Machine) (cfg : Cli.Config)
  : list string :=
  Cli.pre_of cfg ++ [test_line m cfg].

(** The report file is found at [p]: at the configured place, or else
    under the working directory. *)
Definition report_found (m : Machine) (cfg : Cli.Config) (p : string)
  : Prop :=
  let h := history_after_test m cfg in
  let primary := Cli.report_path (m_Path m) (m_joinpath m) cfg in
  let fallback := Cli.fallback_path (m_Path m) (m_joinpath m) cfg in
  (m_path_exists m h primary = true /\ p = primary)
  \/ (m_path_exists m h primary = false
      /\ m_path_exists m h fallback = true /\ p = fallback).

Definition report_missing (m : Machine) (cfg : Cli.Config) : Prop :=
  let h := history_after_test m cfg in
  m_path_exists m h (Cli.report_path (m_Path m) (m_joinpath m) cfg) = false
  /\ m_path_exists m h (Cli.fallback_path (m_Path m) (m_joinpath m) cfg)
     = false.

(** A machine for the examples: the command [exit 3] returns 3 and
    every other one 0, the test run returns a failure status, paths are
    plain texts, and the report of [sample_report] is at the configured
    place. *)
Definition sample_machine : Machine :=
  mkMachine
    (fun _ c => if c =? "exit 3" then 3%Z else 0%Z)
    (fun _ _ => 256%Z)
    (fun p => p)
    (fun a b => (a ++ "/" ++ b)%string)
    (fun _ p => p =? "e2e-audit-artifacts/playwright-report.json")
    (fun _ _ => Return sample_report)
    "2024-01-01T00:00:00".

(** The same machine with no report file anywhere, and with a report
    file that is no JSON. *)
Definition machine_without_report : Machine :=
  mkMachine (m_popen sample_machine) (m_os_system sample_machine)
            (m_Path sample_machine) (m_joinpath sample_machine)
            (fun _ _ => false) (m_load_report sample_machine)
            (m_utcnow sample_machine).

Definition machine_with_broken_report : Machine :=
  mkMachine (m_popen sample_machine) (m_os_system sample_machine)
            (m_Path sample_machine) (m_joinpath sample_machine)
            (m_path_exists sample_machine)
            (fun _ _ => Raise JSONDecodeError)
            (m_utcnow sample_machine).

Definition sample_config (pre_steps post_steps : list string)
  : option Cli.Config :=
  Some (Cli.mkConfig (Some pre_steps) None None (Some post_steps)).

(* ================================================================== *)
(** * Facts: the Python helpers *)
(* ================================================================== *)

Module PyFacts.

Ltac divmod c k :=
  let q := fresh "q" in
  let r := fresh "r" in
  pose proof (N.div_mod c k ltac:(discriminate));
  pose proof (N.mod_lt c k ltac:(discriminate));
  set (q := (c / k)%N) in *; set (r := (c mod k)%N) in *;
  clearbody q r.

Lemma byte_inj n m :
  (n < 256)%N -> (m < 256)%N -> Py.byte n = Py.byte m -> n = m.
Proof.
  intros Hn Hm E. unfold Py.byte in E.
  rewrite <- (N_ascii_embedding n Hn), <- (N_ascii_embedding m Hm), E.
  reflexivity.
Qed.

Lemma startswith_cons a p b s :
  Py.startswith (String a p) (String b s) = true
  <-> a = b /\ Py.startswith p s = true.
Proof.
  cbn [Py.startswith]. rewrite andb_true_iff, Ascii.eqb_eq. reflexivity.
Qed.

Lemma append_empty s : (s ++ "")%string = s.
Proof. induction s as [|c s IH]; cbn; [reflexivity|]. now rewrite IH. Qed.

Lemma append_assoc a b c :
  ((a ++ b) ++ c)%string = (a ++ (b ++ c))%string.
Proof. induction a as [|x a IH]; cbn; [reflexivity|]. now rewrite IH. Qed.

(** The four forms of an encoding. *)
Lemma utf8_forms c :
  code_point c ->
  (exists b0, Py.utf8 c = String (Py.byte b0) "" /\ b0 < 128 /\ c = b0)%N
  \/ (exists b0 b1,
        Py.utf8 c = String (Py.byte b0) (String (Py.byte b1) "")
        /\ 192 <= b0 < 224 /\ 128 <= b1 < 192
        /\ c = (b0 - 192) * 64 + (b1 - 128))%N
  \/ (exists b0 b1 b2,
        Py.utf8 c
        = String (Py.byte b0) (String (Py.byte b1) (String (Py.byte b2) ""))
        /\ 224 <= b0 < 240 /\ 128 <= b1 < 192 /\ 128 <= b2 < 192
        /\ c = (b0 - 224) * 4096 + (b1 - 128) * 64 + (b2 - 128))%N
  \/ (exists b0 b1 b2 b3,
        Py.utf8 c
        = String (Py.byte b0)
            (String (Py.byte b1)
               (String (Py.byte b2) (String (Py.byte b3) "")))
        /\ 240 <= b0 < 248 /\ 128 <= b1 < 192 /\ 128 <= b2 < 192
        /\ 128 <= b3 < 192
        /\ c = (b0 - 240) * 262144 + (b1 - 128) * 4096
               + (b2 - 128) * 64 + (b3 - 128))%N.
Proof.
  unfold code_point, Py.utf8. intro Hc.
  destruct (N.ltb_spec c 128); [left; exists c; auto|].
  destruct (N.ltb_spec c 2048).
  { right; left. eexists _, _. split; [reflexivity|].
    divmod c 64%N. lia. }
  destruct (N.ltb_spec c 65536).
  { right; right; left. eexists _, _, _. split; [reflexivity|].
    replace (c / 4096)%N with (c / 64 / 64)%N
      by (rewrite N.Div0.div_div; reflexivity).
    divmod c 64%N. divmod q 64%N. lia. }
  right; right; right. eexists _, _, _, _. split; [reflexivity|].
  replace (c / 262144)%N with (c / 64 / 64 / 64)%N
    by (rewrite !N.Div0.div_div; reflexivity).
  replace (c / 4096)%N with (c / 64 / 64)%N
    by (rewrite N.Div0.div_div; reflexivity).
  divmod c 64%N. divmod q 64%N. divmod q0 64%N. lia.
Qed.


(** UTF-8 is prefix-free: an encoding that starts a text is the encoding
    of its first code point. *)
Lemma utf8_prefix_inj w c rest :
  code_point w -> code_point c ->
  Py.startswith (Py.utf8 w) (Py.utf8 c ++ rest) = true -> w = c.
Proof.
  intros Hw Hc.
  destruct (utf8_forms w Hw)
    as [(x0 & -> & ?)|[(x0 & x1 & -> & ?)|[(x0 & x1 & x2 & -> & ?)
       |(x0 & x1 & x2 & x3 & -> & ?)]]];
  destruct (utf8_forms c Hc)
    as [(y0 & -> & ?)|[(y0 & y1 & -> & ?)|[(y0 & y1 & y2 & -> & ?)
       |(y0 & y1 & y2 & y3 & -> & ?)]]];
  cbn [append]; intro P;
  repeat match type of P with
         | Py.startswith (String _ _) (String _ _) = true =>
             let E := fresh "E" in
             apply startswith_cons in P; destruct P as [E P];
             apply byte_inj in E; [|lia|lia]
         end;
  lia.
Qed.

Lemma utf8_not_empty c : Py.utf8 c <> "".
Proof.
  unfold Py.utf8.
  destruct (c <? 128)%N; [discriminate|].
  destruct (c <? 2048)%N; [discriminate|].
  destruct (c <? 65536)%N; discriminate.
Qed.

Lemma whitespace_code_points : Forall code_point Py.whitespace.
Proof. unfold code_point. repeat constructor. Qed.

Lemma isspace_In c : Py.isspace c = true <-> In c Py.whitespace.
Proof.
  unfold Py.isspace. rewrite existsb_exists. split.
  - intros (w & Hin & E). apply N.eqb_eq in E. now subst.
  - intro H. exists c. split; [exact H|apply N.eqb_refl].
Qed.

(** No character of a list starts [s]. *)
Lemma space_length_none_in (ws : list N) s :
  (forall w, In w ws -> Py.startswith (Py.utf8 w) s = false) ->
  fold_right
    (fun w n =>
       if Py.startswith (Py.utf8 w) s then String.length (Py.utf8 w) else n)
    0 ws = 0.
Proof.
  induction ws as [|w ws IH]; intro H; [reflexivity|].
  cbn [fold_right]. rewrite (H w (or_introl eq_refl)).
  apply IH. intros w' Hin. apply H. now right.
Qed.

Lemma space_length_none s :
  (forall w, In w Py.whitespace -> Py.startswith (Py.utf8 w) s = false) ->
  Py.space_length s = 0.
Proof. apply space_length_none_in. Qed.

(** A text that starts with a character that is no white space. *)
Lemma space_length_other c rest :
  code_point c -> Py.isspace c = false ->
  Py.space_length (Py.utf8 c ++ rest) = 0.
Proof.
  intros Hc Hns. apply space_length_none. intros w Hin.
  destruct (Py.startswith (Py.utf8 w) (Py.utf8 c ++ rest)) eqn:P;
    [|reflexivity].
  assert (Hw : code_point w).
  { pose proof whitespace_code_points as F. rewrite Forall_forall in F.
    now apply F. }
  apply (utf8_prefix_inj w c rest Hw Hc) in P. subst w.
  apply isspace_In in Hin. congruence.
Qed.

(** No white space character starts with a continuation byte. *)
Lemma whitespace_leads :
  Forall (fun w => match Py.utf8 w with
                   | String a _ =>
                       (N_of_ascii a <? 128)%N || (192 <=? N_of_ascii a)%N
                       = true
                   | EmptyString => False
                   end)
         Py.whitespace.
Proof. repeat (constructor; [reflexivity|]). constructor. Qed.

Lemma space_length_continuation b s :
  (128 <= b < 192)%N -> Py.space_length (String (Py.byte b) s) = 0.
Proof.
  intro Hb. apply space_length_none. intros w Hin.
  pose proof whitespace_leads as F. rewrite Forall_forall in F.
  specialize (F w Hin). destruct (Py.utf8 w) as [|a p]; [contradiction|].
  destruct (Py.startswith (String a p) (String (Py.byte b) s)) eqn:P;
    [|reflexivity].
  apply startswith_cons in P as [-> _]. unfold Py.byte in F.
  rewrite N_ascii_embedding in F by lia.
  apply orb_prop in F as [F|F]; [apply N.ltb_lt in F|apply N.leb_le in F];
    lia.
Qed.

Lemma split_from_step b s cur :
  Py.space_length (String b s) = 0 ->
  Py.split_from 0 cur (String b s)
  = Py.split_from 0 (cur ++ String b "")%string s.
Proof. intro H. cbn [Py.split_from]. rewrite H. reflexivity. Qed.

(** A character that is no white space joins the run being read. *)
Lemma split_from_other c cur rest :
  code_point c -> Py.isspace c = false ->
  Py.split_from 0 cur (Py.utf8 c ++ rest)
  = Py.split_from 0 (cur ++ Py.utf8 c) rest.
Proof.
  intros Hc Hns. pose proof (space_length_other c rest Hc Hns) as H0.
  destruct (utf8_forms c Hc)
    as [(y0 & E & ?)|[(y0 & y1 & E & ?)|[(y0 & y1 & y2 & E & ?)
       |(y0 & y1 & y2 & y3 & E & ?)]]];
    rewrite E in *; cbn [append] in *;
    rewrite split_from_step by exact H0;
    repeat (rewrite split_from_step
              by (apply space_length_continuation; lia));
    rewrite ?append_assoc; reflexivity.
Qed.

(** A white space character ends the run being read. *)
Lemma split_from_space w cur rest :
  In w Py.whitespace ->
  Py.split_from 0 cur (Py.utf8 w ++ rest)
  = (if Py.truthy cur then [cur] else []) ++ Py.split_from 0 "" rest.
Proof.
  intro Hin. unfold Py.whitespace in Hin. cbn [In] in Hin.
  repeat (destruct Hin as [<-|Hin];
          [destruct cur; vm_compute Py.utf8; reflexivity|]).
  destruct Hin.
Qed.

Lemma encode_app a b : encode (a ++ b) = (encode a ++ encode b)%string.
Proof.
  induction a as [|c a IH]; cbn [encode app append]; [reflexivity|].
  rewrite IH, append_assoc. reflexivity.
Qed.

Lemma truthy_encode cur :
  Py.truthy (encode cur) = match cur with [] => false | _ :: _ => true end.
Proof.
  destruct cur as [|c cur]; [reflexivity|]. cbn [encode].
  pose proof (utf8_not_empty c) as H.
  destruct (Py.utf8 c); [contradiction|reflexivity].
Qed.

(** The byte reading follows the reading by code points. *)
Lemma split_from_encode l :
  Forall code_point l ->
  forall cur,
    Py.split_from 0 (encode cur) (encode l)
    = map encode (split_points_from cur l).
Proof.
  induction 1 as [|c rest Hc Hrest IH]; intro cur.
  - cbn [encode Py.split_from split_points_from]. rewrite truthy_encode.
    destruct cur; reflexivity.
  - cbn [encode split_points_from]. destruct (Py.isspace c) eqn:Ec.
    + rewrite split_from_space by (apply isspace_In; exact Ec).
      rewrite truthy_encode. change "" with (encode []). rewrite IH.
      destruct cur; reflexivity.
    + rewrite split_from_other by assumption.
      rewrite <- IH, encode_app. cbn [encode]. rewrite append_empty.
      reflexivity.
Qed.

(** [str.split] on the encoding of a text gives the encodings of the
    words that [str.split] on code points gives. *)
Lemma split_encode l :
  Forall code_point l -> Py.split (encode l) = map encode (split_points l).
Proof. intro H. exact (split_from_encode l H []). Qed.

(** Where the white space reading is 0, no white space character starts. *)
Lemma space_length_zero_in (ws : list N) s :
  fold_right
    (fun w n =>
       if Py.startswith (Py.utf8 w) s then String.length (Py.utf8 w) else n)
    0 ws = 0 ->
  forall w, In w ws -> Py.startswith (Py.utf8 w) s = false.
Proof.
  induction ws as [|a ws IH]; intros H w Hin; [destruct Hin|].
  cbn [fold_right] in H. destruct (Py.startswith (Py.utf8 a) s) eqn:E.
  - pose proof (utf8_not_empty a) as Hne.
    destruct (Py.utf8 a); [contradiction|discriminate].
  - destruct Hin as [<-|Hin]; [exact E|]. now apply IH.
Qed.

Lemma space_length_zero s :
  Py.space_length s = 0 ->
  forall w, In w Py.whitespace -> Py.startswith (Py.utf8 w) s = false.
Proof. apply space_length_zero_in. Qed.

Lemma startswith_app p :
  forall s r, Py.startswith p s = true -> Py.startswith p (s ++ r) = true.
Proof.
  induction p as [|a p IH]; intros s r H; [reflexivity|].
  destruct s as [|b s]; [discriminate|].
  apply startswith_cons in H as [-> H]. cbn [append].
  apply startswith_cons. split; [reflexivity|]. now apply IH.
Qed.

Lemma space_length_app u s :
  Py.space_length (u ++ s) = 0 -> Py.space_length u = 0.
Proof.
  intro H. apply space_length_none. intros w Hin.
  destruct (Py.startswith (Py.utf8 w) u) eqn:E; [|reflexivity].
  apply (startswith_app _ _ s) in E.
  rewrite (space_length_zero _ H w Hin) in E. discriminate.
Qed.

Lemma no_space_before_snoc cur b s :
  no_space_before cur (String b s) = true ->
  Py.space_length (String b s) = 0 ->
  no_space_before (cur ++ String b "") s = true.
Proof.
  intros H Hb. induction cur as [|c cur IH].
  - cbn [append no_space_before]. rewrite Hb. reflexivity.
  - cbn [no_space_before] in H. apply andb_true_iff in H as [H1 H2].
    cbn [append no_space_before]. rewrite (IH H2), andb_true_r.
    change (String c (cur ++ String b "") ++ s)%string
      with (String c ((cur ++ String b "") ++ s))%string.
    rewrite append_assoc. exact H1.
Qed.

Lemma no_space_before_end cur s :
  no_space_before cur s = true -> no_space cur = true.
Proof.
  unfold no_space. induction cur as [|c cur IH]; intro H; [reflexivity|].
  cbn [no_space_before] in *. apply andb_true_iff in H as [H1 H2].
  rewrite (IH H2), andb_true_r, append_empty.
  apply Nat.eqb_eq in H1. apply Nat.eqb_eq.
  exact (space_length_app _ _ H1).
Qed.

(** The words of a split are not empty and hold no white space. *)
Lemma split_from_pieces s :
  forall skip cur,
    no_space_before cur s = true ->
    (skip <> 0 -> cur = "") ->
    Forall (fun piece => piece <> "" /\ no_space piece = true)
           (Py.split_from skip cur s).
Proof.
  induction s as [|b s IH]; intros skip cur Hcur Hskip; cbn [Py.split_from].
  - destruct cur as [|c cur]; cbn [Py.truthy]; constructor; [|constructor].
    split; [discriminate|]. exact (no_space_before_end _ _ Hcur).
  - destruct skip as [|k].
    + destruct (Py.space_length (String b s)) as [|k] eqn:E.
      * apply IH; [|intro; contradiction].
        now apply no_space_before_snoc.
      * destruct cur as [|c cur]; cbn [Py.truthy].
        { apply IH; [reflexivity|reflexivity]. }
        constructor.
        { split; [discriminate|]. exact (no_space_before_end _ _ Hcur). }
        apply IH; [reflexivity|reflexivity].
    + rewrite (Hskip ltac:(discriminate)). apply IH; reflexivity.
Qed.

Lemma split_pieces t :
  Forall (fun piece => piece <> "" /\ no_space piece = true) (Py.split t).
Proof. apply split_from_pieces; [reflexivity|intro; reflexivity]. Qed.

Lemma join_not_empty p ps : p <> "" -> Py.join " " (p :: ps) <> "".
Proof.
  unfold Py.join. intro Hp. destruct p; [contradiction|].
  destruct ps; cbn; discriminate.
Qed.

(** [int_true_div] against the IEEE 754 division of the standard
    library, on a sample of durations and on other divisors. *)
Example int_true_div_is_binary64_division :
  forallb (fun n => agrees_with_binary64 (Z.of_nat n) 1000) (seq 0 300)
  && forallb (fun n => agrees_with_binary64 (Z.of_nat n * 7919 + 13) 1000)
             (seq 0 100)
  && forallb (fun n => agrees_with_binary64 (2 ^ 52 - Z.of_nat n) 1000)
             (seq 0 100)
  && forallb (fun n => agrees_with_binary64 (- Z.of_nat n) 1000) (seq 1 50)
  && forallb (fun n => agrees_with_binary64 (Z.of_nat n * 104729 + 1) (-37))
             (seq 0 50)
  = true.
Proof. vm_compute. reflexivity. Qed.

End PyFacts.

(* ================================================================== *)
(** * Facts: the walk as a fold over the result nodes *)
(* ================================================================== *)

Module SummarizerFacts.
Import Summarizer.


Section FoldFlat.
Context {A B S : Type}.
Variable g : S -> B -> S.
Variable f : A -> S -> S.
Variable h : A -> list B.

Lemma fold_left_flat_map_Forall (l : list A) :
  Forall (fun x => forall st, f x st = fold_left g (h x) st) l ->
  forall st,
    fold_left (fun acc x => f x acc) l st = fold_left g (flat_map h l) st.
Proof.
  induction 1 as [|x l Hx _ IH]; intro st; simpl.
  - reflexivity.
  - rewrite fold_left_app, <- Hx. apply IH.
Qed.

Lemma fold_left_flat_map (l : list A) :
  (forall x st, f x st = fold_left g (h x) st) ->
  forall st,
    fold_left (fun acc x => f x acc) l st = fold_left g (flat_map h l) st.
Proof.
  intro H. apply fold_left_flat_map_Forall.
  apply Forall_forall. intros x _. apply H.
Qed.
End FoldFlat.

Lemma visit_test_flat spec t st :
  visit_test spec t st
  = fold_left visit_pair (map (pair spec) (test_results t)) st.
Proof.
  unfold visit_test. revert st.
  induction (test_results t) as [|r rs IH]; intro st; simpl.
  - reflexivity.
  - apply IH.
Qed.

Lemma visit_spec_flat spec st :
  visit_spec spec st = fold_left visit_pair (spec_results spec) st.
Proof.
  unfold visit_spec, spec_results.
  apply (fold_left_flat_map visit_pair (visit_test spec)).
  intros t st'. apply visit_test_flat.
Qed.

Lemma visit_suite_flat s :
  forall st, visit_suite s st = fold_left visit_pair (suite_results s) st.
Proof.
  induction s as [sp subs IH] using Suite_nested_ind. intro st.
  cbn [visit_suite suite_results].
  rewrite fold_left_app.
  rewrite (fold_left_flat_map visit_pair visit_spec spec_results)
    by (intros; apply visit_spec_flat).
  apply (fold_left_flat_map_Forall visit_pair visit_suite suite_results).
  exact IH.
Qed.

Lemma walk_suites_flat suites st :
  walk_suites suites st
  = fold_left visit_pair (flat_map suite_results suites) st.
Proof.
  unfold walk_suites.
  apply (fold_left_flat_map visit_pair visit_suite suite_results).
  intros; apply visit_suite_flat.
Qed.

(** The recursive call of line 47, as an equation. *)
Lemma walk_suites_cons sp subs rest st :
  walk_suites (mkSuite sp subs :: rest) st
  = walk_suites rest
      (walk_suites subs
         (fold_left (fun acc spec => visit_spec spec acc) sp st)).
Proof. reflexivity. Qed.

Lemma walk_suites_nil st : walk_suites [] st = st.
Proof. reflexivity. Qed.

(** The statuses tested by the [if]/[elif] chain exclude one another. *)
Lemma status_is_inj status a b :
  status_is status a = true -> status_is status b = true -> a = b.
Proof.
  destruct status as [x|]; simpl; [|discriminate].
  intros Ha Hb. apply String.eqb_eq in Ha, Hb. congruence.
Qed.

Lemma passed_not_failed p : is_passed p = true -> is_failed p = false.
Proof.
  unfold is_passed, is_failed. intro H.
  destruct (status_is _ "failed") eqn:E; [|reflexivity].
  pose proof (status_is_inj _ _ _ H E). discriminate.
Qed.

Lemma passed_not_skipped p : is_passed p = true -> is_skipped p = false.
Proof.
  unfold is_passed, is_skipped, status_in_skipped. intro H.
  repeat match goal with
         | |- context [status_is ?s ?x] =>
             lazymatch x with
             | "passed" => fail
             | _ => destruct (status_is s x) eqn:?E
             end
         end; try reflexivity;
    match goal with
    | E : status_is _ _ = true |- _ =>
        pose proof (status_is_inj _ _ _ H E); discriminate
    end.
Qed.

Lemma failed_not_skipped p : is_failed p = true -> is_skipped p = false.
Proof.
  unfold is_failed, is_skipped, status_in_skipped. intro H.
  repeat match goal with
         | |- context [status_is ?s ?x] =>
             lazymatch x with
             | "failed" => fail
             | _ => destruct (status_is s x) eqn:?E
             end
         end; try reflexivity;
    match goal with
    | E : status_is _ _ = true |- _ =>
        pose proof (status_is_inj _ _ _ H E); discriminate
    end.
Qed.

(** One step of the loop, bucket by bucket. *)
Lemma visit_pair_step st p :
  visit_pair st p
  = mkSummary (total st + 1)
              (passed st + (if is_passed p then 1 else 0))
              (failed st + (if is_failed p then 1 else 0))
              (skipped st + (if is_skipped p then 1 else 0))
              (specs st ++ [spec_record_of p])
              (failures st
                 ++ (if is_failed p then [failure_record_of p] else [])).
Proof.
  destruct p as [spec r]. unfold visit_pair, visit_result. cbn [fst snd].
  destruct (is_passed (spec, r)) eqn:Hp.
  - rewrite (passed_not_failed _ Hp), (passed_not_skipped _ Hp).
    unfold is_passed in Hp; cbn [snd] in Hp. rewrite Hp. cbn.
    rewrite app_nil_r, !Z.add_0_r. reflexivity.
  - unfold is_passed in Hp; cbn [snd] in Hp. rewrite Hp.
    destruct (is_failed (spec, r)) eqn:Hf.
    + rewrite (failed_not_skipped _ Hf).
      unfold is_failed in Hf; cbn [snd] in Hf. rewrite Hf. cbn.
      rewrite !Z.add_0_r. reflexivity.
    + unfold is_failed in Hf; cbn [snd] in Hf. rewrite Hf.
      unfold is_skipped; cbn [snd].
      destruct (status_in_skipped (res_status r)); cbn;
        rewrite app_nil_r, !Z.add_0_r; reflexivity.
Qed.

(** The whole fold in closed form. *)
Lemma fold_visit_closed l : forall st,
  fold_left visit_pair l st
  = mkSummary (total st + Z.of_nat (List.length l))
              (passed st + countZ is_passed l)
              (failed st + countZ is_failed l)
              (skipped st + countZ is_skipped l)
              (specs st ++ map spec_record_of l)
              (failures st ++ map failure_record_of (filter is_failed l)).
Proof.
  unfold countZ.
  induction l as [|p l IH]; intro st.
  - cbn. rewrite !Z.add_0_r, !app_nil_r. destruct st; reflexivity.
  - cbn [fold_left]. rewrite IH, visit_pair_step. cbn [total passed failed skipped specs failures].
    cbn [filter map List.length].
    destruct (is_passed p), (is_failed p), (is_skipped p);
      cbn [List.length map]; rewrite <- ?app_assoc; cbn [app];
      f_equal; lia.
Qed.

Lemma summarize_closed data :
  summarize_playwright_json data
  = let l := report_results data in
    mkSummary (Z.of_nat (List.length l))
              (countZ is_passed l) (countZ is_failed l) (countZ is_skipped l)
              (map spec_record_of l)
              (map failure_record_of (filter is_failed l)).
Proof.
  unfold summarize_playwright_json, report_results.
  rewrite walk_suites_flat, fold_visit_closed. reflexivity.
Qed.

(** Counting along the tree and counting the flattened list agree. *)
Lemma length_flat_map_sum {A B : Type} (h : A -> list B) (c : A -> nat) l :
  Forall (fun x => List.length (h x) = c x) l ->
  List.length (flat_map h l) = sum_of c l.
Proof.
  induction 1 as [|x l Hx _ IH]; simpl.
  - reflexivity.
  - rewrite length_app, Hx, IH. reflexivity.
Qed.

Lemma length_spec_results spec :
  List.length (spec_results spec) = count_spec spec.
Proof.
  unfold spec_results, count_spec.
  apply length_flat_map_sum, Forall_forall. intros t _.
  apply length_map.
Qed.

Lemma length_suite_results s :
  List.length (suite_results s) = count_suite s.
Proof.
  induction s as [sp subs IH] using Suite_nested_ind.
  cbn [suite_results count_suite]. rewrite length_app. f_equal.
  - apply length_flat_map_sum, Forall_forall. intros x _.
    apply length_spec_results.
  - apply length_flat_map_sum, IH.
Qed.

Lemma length_report_results data :
  List.length (report_results data) = count_results data.
Proof.
  apply length_flat_map_sum, Forall_forall. intros s _.
  apply length_suite_results.
Qed.

End SummarizerFacts.

(* ================================================================== *)
(** * Facts: buckets and attachments *)
(* ================================================================== *)

Module ClaimFacts.
Import Summarizer SummarizerFacts.

Lemma has_bucketb_spec r : has_bucketb r = true <-> has_bucket r.
Proof.
  unfold has_bucketb, has_bucket. destruct (res_status r) as [s|].
  - rewrite existsb_exists. split.
    + intros (x & Hin & E). apply String.eqb_eq in E. subst x.
      exists s; auto.
    + intros (x & [= <-] & Hin). exists s. split; [exact Hin|].
      apply String.eqb_refl.
  - split; [discriminate|]. intros (x & E & _); discriminate.
Qed.

Lemma in_bucket_has_bucketb p :
  is_passed p || is_failed p || is_skipped p = has_bucketb (snd p).
Proof.
  unfold is_passed, is_failed, is_skipped, status_in_skipped, has_bucketb,
    status_is.
  destruct (res_status (snd p)) as [s|]; [|reflexivity].
  cbn [existsb bucket_statuses]. rewrite orb_false_r, !orb_assoc.
  reflexivity.
Qed.

Lemma bucket_counts l :
  (countZ is_passed l + countZ is_failed l + countZ is_skipped l
   <= Z.of_nat (List.length l))%Z
  /\ ((countZ is_passed l + countZ is_failed l + countZ is_skipped l
       = Z.of_nat (List.length l))%Z
      <-> Forall has_bucket (map snd l)).
Proof.
  unfold countZ. induction l as [|p l [IHle IHeq]].
  - cbn. split; [lia|]. split; [constructor|reflexivity].
  - cbn [filter map List.length].
    pose proof (in_bucket_has_bucketb p) as Hb.
    pose proof (has_bucketb_spec (snd p)) as Hs.
    destruct (is_passed p) eqn:Hp.
    + rewrite (passed_not_failed _ Hp), (passed_not_skipped _ Hp).
      cbn in Hb. cbn [List.length]. split; [lia|].
      split.
      * intro E. constructor; [apply Hs; auto|]. apply IHeq. lia.
      * intro F. inversion F; subst. apply IHeq in H2. lia.
    + destruct (is_failed p) eqn:Hf.
      * rewrite (failed_not_skipped _ Hf).
        cbn in Hb. cbn [List.length]. split; [lia|].
        split.
        -- intro E. constructor; [apply Hs; auto|]. apply IHeq. lia.
        -- intro F. inversion F; subst. apply IHeq in H2. lia.
      * destruct (is_skipped p) eqn:Hsk; cbn in Hb; cbn [List.length].
        -- split; [lia|]. split.
           ++ intro E. constructor; [apply Hs; auto|]. apply IHeq. lia.
           ++ intro F. inversion F; subst. apply IHeq in H2. lia.
        -- split; [lia|]. split.
           ++ intro E. lia.
           ++ intro F. inversion F; subst. apply Hs in H1. congruence.
Qed.

Lemma is_error_attachment_spec a :
  is_error_attachment a = true <-> error_attachment a.
Proof.
  unfold is_error_attachment, error_attachment.
  destruct (att_name a) as [n|]; [|split; [discriminate|intros [[=] _]]].
  destruct (att_body a) as [b|]; cbn.
  - split.
    + intro E. apply andb_prop in E as [E1 E2].
      apply String.eqb_eq in E1. subst n. split; [reflexivity|].
      exists b. split; [reflexivity|]. intros ->. discriminate.
    + intros [[= ->] (b' & [= <-] & Hne)]. cbn.
      destruct b; [congruence|reflexivity].
  - rewrite andb_false_r. split; [discriminate|].
    intros [_ (b' & [=] & _)].
Qed.

Lemma not_error_attachment a :
  ~ error_attachment a -> is_error_attachment a = false.
Proof.
  intro H. destruct (is_error_attachment a) eqn:E; [|reflexivity].
  exfalso. apply H, is_error_attachment_spec, E.
Qed.

Lemma find_error_first pre a post b :
  att_name a = Some "error" -> att_body a = Some b -> b <> "" ->
  Forall (fun a' => ~ error_attachment a') pre ->
  find_error (pre ++ a :: post) = Some b.
Proof.
  intros Hn Hb Hne Hpre. induction Hpre as [|x pre Hx _ IH]; cbn.
  - assert (E : is_error_attachment a = true).
    { apply is_error_attachment_spec. split; [exact Hn|]. exists b; auto. }
    rewrite E. exact Hb.
  - rewrite (not_error_attachment x Hx). exact IH.
Qed.

Lemma find_error_none atts :
  Forall (fun a => ~ error_attachment a) atts -> find_error atts = None.
Proof.
  induction 1 as [|x atts Hx _ IH]; cbn; [reflexivity|].
  rewrite (not_error_attachment x Hx). exact IH.
Qed.

Lemma no_bucket_flags spec r :
  ~ has_bucket r ->
  is_passed (spec, r) = false /\ is_failed (spec, r) = false
  /\ is_skipped (spec, r) = false.
Proof.
  intro H. pose proof (in_bucket_has_bucketb (spec, r)) as Hb.
  destruct (has_bucketb (snd (spec, r))) eqn:E.
  - exfalso. apply H, has_bucketb_spec, E.
  - apply orb_false_elim in Hb as [Hb Hs].
    apply orb_false_elim in Hb as [Hp Hf]. auto.
Qed.

End ClaimFacts.

(* ================================================================== *)
(** * Facts: float division and formatting *)
(* ================================================================== *)

Module PyFloatFacts.
Import PyFloat.
Local Open Scope Z_scope.

Lemma div_rne_error n d :
  0 < d -> 2 * Z.abs (d * div_rne n d - n) <= d.
Proof.
  intro Hd. unfold div_rne.
  pose proof (Z.div_mod n d ltac:(lia)) as E.
  pose proof (Z.mod_pos_bound n d Hd) as B.
  set (q := n / d) in *. set (r := n mod d) in *.
  destruct (Z.compare_spec (2 * r) d); [destruct (Z.even q)| |]; nia.
Qed.

Lemma div_rne_nonneg n d : 0 <= n -> 0 < d -> 0 <= div_rne n d.
Proof.
  intros Hn Hd. unfold div_rne.
  pose proof (Z.div_pos n d Hn Hd).
  destruct (2 * (n mod d) ?= d); [destruct (Z.even _)| |]; lia.
Qed.

Lemma div_rne_near X D a :
  0 < D -> 2 * Z.abs (X - a * D) < D -> div_rne X D = a.
Proof.
  intros HD Hnear. unfold div_rne.
  pose proof (Z.div_mod X D ltac:(lia)) as E.
  pose proof (Z.mod_pos_bound X D HD) as B.
  set (q := X / D) in *. set (r := X mod D) in *.
  assert (q = a \/ q = a - 1) as [Hq|Hq] by nia.
  - subst q. rewrite Hq in *.
    destruct (Z.compare_spec (2 * r) D); [nia| reflexivity |nia].
  - rewrite Hq in *.
    destruct (Z.compare_spec (2 * r) D); [nia| nia | lia].
Qed.


Lemma quotient_exponent_1000 a :
  0 < a < 2 ^ 52 -> -62 <= quotient_exponent a 1000 <= -10.
Proof.
  intros [Ha Hb]. unfold quotient_exponent.
  change (Z.log2 1000) with 9.
  pose proof (Z.log2_nonneg a).
  assert (Z.log2 a < 52) by (apply Z.log2_lt_pow2; lia).
  destruct (_ <? _); lia.
Qed.

(** Below [2^52] milliseconds the float quotient rounds back to the
    very number of thousandths. *)
Lemma int_true_div_1000_exact a :
  a <> 0 -> Z.abs a < 2 ^ 52 ->
  exists m e,
    int_true_div a 1000 = Return (mk (a <? 0) m e)
    /\ 0 <= m /\ thousandths (mk (a <? 0) m e) = Z.abs a.
Proof.
  intros Hnz Hlt.
  assert (Ha : 0 < Z.abs a < 2 ^ 52) by lia.
  pose proof (quotient_exponent_1000 _ Ha) as He.
  unfold int_true_div.
  replace (1000 =? 0) with false by reflexivity.
  replace (a =? 0) with false by (symmetry; apply Z.eqb_neq; lia).
  change (Z.abs 1000) with 1000.
  set (n := Z.abs a) in *.
  set (e := quotient_exponent n 1000) in *.
  rewrite (Z.max_r 0 (- e)) by lia. rewrite (Z.max_l 0 e) by lia.
  change (2 ^ 0) with 1. rewrite !Z.mul_1_r.
  set (m := div_rne (n * 2 ^ (- e)) 1000).
  assert (Hpow : 2 ^ 10 <= 2 ^ (- e) <= 2 ^ 62)
    by (split; apply Z.pow_le_mono_r; lia).
  change (2 ^ 10) with 1024 in Hpow.
  change (2 ^ 62) with 4611686018427387904 in Hpow.
  change (2 ^ 52) with 4503599627370496 in Ha.
  pose proof (div_rne_error (n * 2 ^ (- e)) 1000 ltac:(lia)) as Herr.
  fold m in Herr.
  assert (Hm0 : 0 <= m) by (apply div_rne_nonneg; nia).
  assert (Hm : m < 2 ^ 114).
  { change (2 ^ 114) with (4503599627370496 * 4611686018427387904). nia. }
  assert (H1024 : 2 ^ 114 < 2 ^ 1024) by (apply Z.pow_lt_mono_r; lia).
  replace (2 ^ 1024 <=? m) with false by (symmetry; apply Z.leb_gt; lia).
  change (1000 <? 0) with false. rewrite xorb_false_r.
  exists m, e. split; [reflexivity|]. split; [exact Hm0|].
  unfold thousandths; cbn [expo mant].
  replace (0 <=? e) with false by (symmetry; apply Z.leb_gt; lia).
  apply div_rne_near; lia.
Qed.

Lemma int_true_div_1000_small a :
  Z.abs a < 2 ^ 52 ->
  exists secs,
    int_true_div a 1000 = Return secs
    /\ neg secs = (a <? 0) /\ 0 <= mant secs /\ thousandths secs = Z.abs a.
Proof.
  intro Hlt. destruct (Z.eq_dec a 0) as [->|Hnz].
  - exists (mk false 0 0). repeat split; reflexivity || (cbn; lia).
  - destruct (int_true_div_1000_exact a Hnz Hlt) as (m & e & E & Hm & Ht).
    exists (mk (a <? 0) m e). repeat split; assumption.
Qed.




Local Close Scope Z_scope.







End PyFloatFacts.

(* ================================================================== *)
(** * Facts: the JUnit renderer *)
(* ================================================================== *)

Module JunitFacts.
Import Junit.

Lemma mapM_Forall2 {A B : Type} (f : A -> result B) l l' :
  Result.mapM f l = Return l' -> Forall2 (fun x y => f x = Return y) l l'.
Proof.
  revert l'. induction l as [|x l IH]; intros l'; cbn.
  - intros [= <-]. constructor.
  - destruct (f x) as [y|e] eqn:Ex; cbn; [|discriminate].
    destruct (Result.mapM f l) as [ys|e]; cbn; [|discriminate].
    intros [= <-]. constructor; [exact Ex | apply IH; reflexivity].
Qed.

Lemma mapM_total {A B : Type} (f : A -> result B) l :
  Forall (fun x => exists y, f x = Return y) l ->
  exists l', Result.mapM f l = Return l'.
Proof.
  induction 1 as [|x l [y Hy] _ [ys IH]]; cbn.
  - eexists; reflexivity.
  - rewrite Hy, IH. cbn. eexists; reflexivity.
Qed.





Lemma testcase_total summary spec :
  (Z.abs (sr_duration_ms spec) < 2 ^ 52)%Z ->
  exists child, testcase summary spec = Return child.
Proof.
  intro Hlt. unfold testcase.
  destruct (PyFloatFacts.int_true_div_1000_small _ Hlt) as (secs & E & _).
  rewrite E. cbn [Result.bind].
  destruct (_ =? "failed"); [|destruct (_ =? "skipped")];
    eexists; reflexivity.
Qed.

End JunitFacts.

(* ================================================================== *)
(** * Facts: the smoke check *)
(* ================================================================== *)

Module RlsFacts.
Import Rls.

Section Facts.
Variable network : nat -> string -> string -> result json.
Variable env : Env.
Hypothesis Hconf : configured env.

(** The run of a configured script, by the answers to its two requests. *)
Lemma run_configured :
  run network env
  = match restricted_response network env with
    | Return d0 =>
        match elevated_response network env with
        | Return d1 => verdict (d0, None) (d1, None) (mkWorld 2 [])
        | Raise (HTTPError e1) =>
            verdict (d0, None) (JNull, Some e1) (mkWorld 2 [])
        | Raise e => (Raise e, mkWorld 2 [])
        end
    | Raise (HTTPError e0) =>
        match elevated_response network env with
        | Return d1 => verdict (JNull, Some e0) (d1, None) (mkWorld 2 [])
        | Raise (HTTPError e1) =>
            verdict (JNull, Some e0) (JNull, Some e1) (mkWorld 2 [])
        | Raise e => (Raise e, mkWorld 2 [])
        end
    | Raise e => (Raise e, mkWorld 1 [])
    end.
Proof.
  destruct Hconf as (H1 & H2 & H3).
  unfold run, main, restricted_response, elevated_response.
  rewrite H1, H2, H3. cbn [negb andb].
  unfold bind, try_fetch, fetch. cbn [requests output start].
  destruct (network 0 _ _) as [d0|[e0| | | | | | |]];
    cbn [requests output]; try reflexivity;
    destruct (network 1 _ _) as [d1|[e1| | | | | | |]]; reflexivity.
Qed.

End Facts.

Lemma private_rows_total rows :
  Forall classified_row rows -> exists ps, private_rows rows = Return ps.
Proof.
  induction 1 as [|r rows (items & -> & _) _ [ps IH]].
  - eexists; reflexivity.
  - cbn [private_rows]. rewrite IH. cbn [Result.bind].
    destruct (eq_str _ _); eexists; reflexivity.
Qed.

Lemma private_rows_found rows :
  Forall classified_row rows -> Exists private_row rows ->
  exists p ps, private_rows rows = Return (p :: ps).
Proof.
  induction 1 as [|r rows (items & -> & _) Hrows IH]; intro Hex.
  - inversion Hex.
  - cbn [private_rows].
    destruct (private_rows_total rows Hrows) as [ps Hall].
    inversion Hex as [? ? (items' & E & Hp)|? ? Hex']; subst.
    + injection E as <-. rewrite Hall. cbn [Result.bind].
      rewrite Hp. cbn. eexists _, _; reflexivity.
    + destruct (IH Hex') as (p & ps' & ->). cbn [Result.bind].
      destruct (eq_str _ _); eexists _, _; reflexivity.
Qed.

End RlsFacts.

Lemma sample_env_configured : configured sample_env.
Proof. repeat split. Qed.

(* ================================================================== *)
(** * The summarizer *)
(* ================================================================== *)

(** C1.  The total of the summary is the number of Result nodes of the
    tree, at whatever depth of nested suites they sit. *)
Theorem C1_total_counts_result_nodes :
  forall data,
    total (Summarizer.summarize_playwright_json data)
    = Z.of_nat (count_results data).
Proof.
  intro data. rewrite SummarizerFacts.summarize_closed. cbn [total].
  rewrite SummarizerFacts.length_report_results. reflexivity.
Qed.

(** C2.  passed + failed + skipped never exceeds total, and equals it
    exactly when every result has one of the five bucketed statuses. *)
Theorem C2_buckets_bounded_by_total :
  forall data,
    let s := Summarizer.summarize_playwright_json data in
    (passed s + failed s + skipped s <= total s)%Z
    /\ ((passed s + failed s + skipped s = total s)%Z
        <-> Forall has_bucket (result_nodes data)).
Proof.
  intro data. rewrite SummarizerFacts.summarize_closed.
  cbn [total passed failed skipped]. unfold result_nodes.
  apply ClaimFacts.bucket_counts.
Qed.

(** C3, counterexample.  A result of status "flaky" is outside the five
    bucketed statuses, yet its record in [specs] has status "flaky", and
    no record has status "unknown". *)
Lemma C3_counterexample_flaky_status :
  ~ has_bucket flaky_result
  /\ specs (Summarizer.summarize_playwright_json flaky_report)
     = [mkSpecRecord "S" 7 "flaky"]
  /\ ~ (exists rec,
          In rec (specs (Summarizer.summarize_playwright_json flaky_report))
          /\ sr_status rec = "unknown").
Proof.
  split; [|split].
  - intros (s & [= <-] & Hin). cbn in Hin.
    repeat (destruct Hin as [Hin|Hin]; [discriminate|]). exact Hin.
  - reflexivity.
  - intros (rec & [<-|[]] & E). discriminate.
Qed.

(** C3, as the code has it.  A result whose status is absent or outside
    the five bucketed statuses adds one to total and to no bucket, adds no
    failure, and appends one record to [specs], which the summary of any
    tree holding the result contains; the status of that record is
    "unknown" when the status is absent or empty, and the status itself
    otherwise. *)
Theorem C3_unbucketed_result_total_only :
  forall spec r,
    ~ has_bucket r ->
    exists rec,
      (forall st,
          Summarizer.visit_result spec r st
          = mkSummary (total st + 1) (passed st) (failed st) (skipped st)
                      (specs st ++ [rec]) (failures st))
      /\ (forall data,
            In (spec, r) (report_results data) ->
            In rec (specs (Summarizer.summarize_playwright_json data)))
      /\ sr_title rec = Summarizer.display_title spec
      /\ sr_duration_ms rec = Py.get (res_duration r) 0%Z
      /\ (res_status r = None \/ res_status r = Some "" ->
          sr_status rec = "unknown")
      /\ (forall s, res_status r = Some s -> s <> "" -> sr_status rec = s).
Proof.
  intros spec r Hno.
  destruct (ClaimFacts.no_bucket_flags spec r Hno) as (Hp & Hf & Hs).
  exists (spec_record_of (spec, r)). split; [|split].
  - intro st.
    change (Summarizer.visit_result spec r st) with (visit_pair st (spec, r)).
    rewrite SummarizerFacts.visit_pair_step, Hp, Hf, Hs.
    rewrite !Z.add_0_r, app_nil_r. reflexivity.
  - intros data Hin. rewrite SummarizerFacts.summarize_closed. cbn [specs].
    apply in_map, Hin.
  - cbn [spec_record_of fst snd sr_title sr_duration_ms sr_status].
    repeat split.
    + intros [E|E]; rewrite E; reflexivity.
    + intros s E Hne. rewrite E. cbn. destruct s; [congruence|reflexivity].
Qed.

Lemma C3_unbucketed_result_witness :
  ~ has_bucket flaky_result
  /\ exists rec,
       Summarizer.visit_result untitled_spec flaky_result empty_summary
       = mkSummary 1 0 0 0 [rec] []
       /\ sr_status rec = "flaky".
Proof.
  assert (H : ~ has_bucket flaky_result).
  { intros (s & E & Hin). injection E as <-. cbn in Hin.
    repeat (destruct Hin as [Hin|Hin]; [discriminate|]). exact Hin. }
  split; [exact H|].
  destruct (C3_unbucketed_result_total_only untitled_spec flaky_result H)
    as (rec & E & _ & _ & _ & _ & Hs).
  exists rec. split; [exact (E empty_summary)|].
  apply Hs; [reflexivity|discriminate].
Defined.

(** C4.  A result of status "failed" adds one to failed and appends one
    failure record, which the summary of any tree holding the result
    contains; its error text is the body of the first attachment named
    "error" with a body that is not empty, and is absent when the result
    has no such attachment. *)
Theorem C4_failed_result_error_text :
  forall spec r,
    res_status r = Some "failed" ->
    exists err,
      let rec := mkFailureRecord (Summarizer.display_title spec)
                                 (Py.get (res_duration r) 0%Z) err in
      (forall st,
          failed (Summarizer.visit_result spec r st) = (failed st + 1)%Z
          /\ failures (Summarizer.visit_result spec r st)
             = failures st ++ [rec])
      /\ (forall data,
            In (spec, r) (report_results data) ->
            In rec (failures (Summarizer.summarize_playwright_json data)))
      /\ (forall pre a post b,
            res_attachments r = pre ++ a :: post ->
            att_name a = Some "error" -> att_body a = Some b -> b <> "" ->
            Forall (fun a' => ~ error_attachment a') pre ->
            err = Some b)
      /\ (Forall (fun a => ~ error_attachment a) (res_attachments r) ->
          err = None).
Proof.
  intros spec r Hst.
  exists (Summarizer.find_error (res_attachments r)). cbv zeta.
  assert (Hf : is_failed (spec, r) = true)
    by (unfold is_failed; cbn [snd]; rewrite Hst; reflexivity).
  split; [|split; [|split]].
  - intro st.
    change (Summarizer.visit_result spec r st) with (visit_pair st (spec, r)).
    rewrite SummarizerFacts.visit_pair_step, Hf. split; reflexivity.
  - intros data Hin. rewrite SummarizerFacts.summarize_closed.
    cbn [failures].
    change (mkFailureRecord (Summarizer.display_title spec)
              (Py.get (res_duration r) 0%Z)
              (Summarizer.find_error (res_attachments r)))
      with (failure_record_of (spec, r)).
    apply in_map, filter_In. split; [exact Hin|exact Hf].
  - intros pre a post b E Hn Hb Hne Hpre. rewrite E.
    apply ClaimFacts.find_error_first; assumption.
  - apply ClaimFacts.find_error_none.
Qed.

Lemma C4_failed_result_witness :
  exists err,
    failures (Summarizer.visit_result sample_spec_b sample_failed_result
                empty_summary)
    = [mkFailureRecord "e2e Spec B" 500 err]
    /\ err = Some "boom".
Proof.
  destruct (C4_failed_result_error_text sample_spec_b sample_failed_result
              eq_refl) as (err & E & _ & Hfirst & _).
  exists err. split; [exact (proj2 (E empty_summary))|].
  apply (Hfirst [mkAttachment (Some "stdout") (Some "log");
                 mkAttachment (Some "error") (Some "")]
                (mkAttachment (Some "error") (Some "boom"))
                [mkAttachment (Some "error") (Some "later")] "boom");
    try reflexivity; try discriminate.
  repeat constructor.
  - intros [[=] _].
  - intros [_ (b & [= <-] & Hne)]. apply Hne. reflexivity.
Defined.

(** C5.  The display title of a spec is the title path joined by spaces
    when a path is present, else the title split on whitespace and
    joined by spaces; when that string is empty, and so when path and
    title are both absent, it is the raw title (the empty string when
    the title is absent).  Whitespace is that of [str.split]: for a
    title that is the text [l] with at least one word, the display title
    is the words that [str.split] on the code points of [l] gives,
    joined by spaces. *)
Theorem C5_display_title_resolution :
  forall spec,
    (forall path,
        spec_titlePath spec = Some path -> Py.join " " path <> "" ->
        Summarizer.display_title spec = Py.join " " path)
    /\ (forall t,
          spec_titlePath spec = None -> spec_title spec = Some t ->
          Py.join " " (Py.split t) <> "" ->
          Summarizer.display_title spec = Py.join " " (Py.split t))
    /\ (title_candidate spec = "" ->
        Summarizer.display_title spec = Py.get (spec_title spec) "")
    /\ (spec_titlePath spec = None -> spec_title spec = None ->
        Summarizer.display_title spec = "")
    /\ (forall l,
          Forall code_point l ->
          spec_titlePath spec = None -> spec_title spec = Some (encode l) ->
          split_points l <> [] ->
          Py.split (encode l) = map encode (split_points l)
          /\ Summarizer.display_title spec
             = Py.join " " (map encode (split_points l))).
Proof.
  intro spec. unfold Summarizer.display_title, Summarizer.spec_title_of,
    title_candidate.
  split; [|split; [|split; [|split]]].
  - intros path -> Hne. cbn [Py.get].
    destruct (Py.join " " path); [congruence|reflexivity].
  - intros t -> -> Hne. cbn [Py.get].
    destruct (Py.join " " (Py.split t)); [congruence|reflexivity].
  - destruct (spec_titlePath spec) as [path|]; cbn [Py.get];
      intros ->; reflexivity.
  - intros -> ->. reflexivity.
  - intros l Hl -> -> Hne. cbn [Py.get].
    pose proof (PyFacts.split_pieces (encode l)) as F.
    rewrite (PyFacts.split_encode l Hl) in *.
    split; [reflexivity|].
    destruct (split_points l) as [|w ws]; [congruence|].
    cbn [map] in *. inversion F as [|? ? [Hw _] _]; subst.
    pose proof (PyFacts.join_not_empty _ (map encode ws) Hw) as Hj.
    destruct (Py.join " " (encode w :: map encode ws));
      [congruence|reflexivity].
Qed.

Lemma C5_display_title_witness :
  Summarizer.display_title sample_spec_b = "e2e Spec B"
  /\ Summarizer.display_title untitled_spec = "Spec C"
  /\ Summarizer.display_title (mkSpec (Some "   ") (Some []) []) = "   "
  /\ Summarizer.display_title (mkSpec None None []) = ""
  /\ (Py.split (encode accented_title)
      = [("voil" ++ String (Py.byte 195) (String (Py.byte 160) ""))%string;
         "test"]
      /\ Summarizer.display_title accented_spec
         = ("voil" ++ String (Py.byte 195) (String (Py.byte 160) " test"))
             %string).
Proof.
  split; [|split; [|split; [|split]]].
  - apply (proj1 (C5_display_title_resolution sample_spec_b)
             ["e2e"; "Spec B"]); [reflexivity|discriminate].
  - apply (proj1 (proj2 (C5_display_title_resolution untitled_spec))
             "  Spec   C "); [reflexivity|reflexivity|discriminate].
  - apply (proj1 (proj2 (proj2 (C5_display_title_resolution
                                  (mkSpec (Some "   ") (Some []) []))))).
    reflexivity.
  - apply (proj1 (proj2 (proj2 (proj2 (C5_display_title_resolution
                                         (mkSpec None None []))))));
      reflexivity.
  - apply (proj2 (proj2 (proj2 (proj2
             (C5_display_title_resolution accented_spec))))
             accented_title).
    + unfold code_point, accented_title. repeat constructor.
    + reflexivity.
    + reflexivity.
    + discriminate.
Defined.

(** C10.  The summary has as many [specs] records as its total and as
    many [failures] records as its failed count: one [specs] record for
    each Result node and one [failures] record for each failed one, in
    the order of the walk. *)
Theorem C10_specs_and_failures_lengths :
  forall data,
    let s := Summarizer.summarize_playwright_json data in
    Z.of_nat (List.length (specs s)) = total s
    /\ Z.of_nat (List.length (failures s)) = failed s
    /\ specs s = map spec_record_of (report_results data)
    /\ failures s
       = map failure_record_of (filter is_failed (report_results data)).
Proof.
  intro data. rewrite SummarizerFacts.summarize_closed.
  cbn [total failed specs failures]. unfold countZ.
  rewrite !length_map. repeat split.
Qed.

(** The case of [tests/test_report.py]. *)
Example test_summarize_playwright_json :
  let s := Summarizer.summarize_playwright_json sample_report in
  total s = 2%Z /\ passed s = 1%Z /\ failed s = 1%Z /\ skipped s = 0%Z
  /\ map fr_error (failures s) = [Some "boom"].
Proof. repeat split. Qed.

Example split_normalises :
  Py.split "  Spec   C " = ["Spec"; "C"]
  /\ Py.join " " (Py.split "  Spec   C ") = "Spec C".
Proof. split; reflexivity. Qed.

(** [split] on texts beyond ASCII: U+00E0 is the bytes C3 A0 and ends no
    word, the em space U+2003, NBSP, NEL and U+3000 end one, the zero
    width space U+200B does not. *)
Example split_unicode :
  encode accented_title
  = ("voil" ++ String (Py.byte 195) (String (Py.byte 160)
       (String (Py.byte 226) (String (Py.byte 128) (String (Py.byte 131)
          " test")))))%string
  /\ Py.split (encode accented_title)
     = [("voil" ++ String (Py.byte 195) (String (Py.byte 160) ""))%string;
        "test"]
  /\ split_points accented_title
     = [[118; 111; 105; 108; 224]; [116; 101; 115; 116]]%N
  /\ Py.split (encode [97; 8195; 98]%N) = ["a"; "b"]
  /\ Py.split (encode [97; 160; 98; 12288; 99; 133]%N) = ["a"; "b"; "c"]
  /\ Py.split (encode [97; 8203; 98]%N) = [encode [97; 8203; 98]%N].
Proof. repeat split. Qed.

(* ================================================================== *)
(** * The JUnit renderer *)
(* ================================================================== *)



(* ================================================================== *)
(** * The smoke check *)
(* ================================================================== *)

(** C7.  With the configuration present: an HTTP error on the elevated
    request gives exit code 1; elevated success with a 401 or 403 on the
    restricted request gives exit code 0; elevated success with any other
    HTTP error on the restricted request gives exit code 0 after a
    warning on stderr. *)
Theorem C7_http_error_classification :
  forall network env,
    configured env ->
    (forall e,
        answered (restricted_response network env) ->
        elevated_response network env = Raise (HTTPError e) ->
        fst (Rls.run network env) = Return 1%Z)
    /\ (forall rows e,
        elevated_response network env = Return rows ->
        restricted_response network env = Raise (HTTPError e) ->
        code e = 401%Z \/ code e = 403%Z ->
        Rls.run network env
        = (Return 0%Z,
           Rls.mkWorld 2
             [(Rls.Stdout,
               "[OK] anon blocked by RLS; service_role succeeded.")]))
    /\ (forall rows e,
        elevated_response network env = Return rows ->
        restricted_response network env = Raise (HTTPError e) ->
        code e <> 401%Z -> code e <> 403%Z ->
        Rls.run network env
        = (Return 0%Z,
           Rls.mkWorld 2
             [(Rls.Stderr,
               ("[WARN] anon request unexpected error: "
                  ++ Rls.str_http_error e)%string)])).
Proof.
  intros network env Hconf.
  rewrite (RlsFacts.run_configured network env Hconf).
  repeat split.
  - intros e Hans ->.
    destruct (restricted_response network env) as [d0|[e0| | | | | | |]];
      try contradiction; reflexivity.
  - intros rows e -> -> Hcode. cbn.
    destruct Hcode as [-> | ->]; reflexivity.
  - intros rows e -> -> H401 H403. cbn.
    apply Z.eqb_neq in H401, H403. rewrite H401, H403. reflexivity.
Qed.

Lemma C7_http_error_classification_witness :
  fst (Rls.run (network_of (Return sample_rows)
                           (Raise (http 500 "Internal Server Error")))
               sample_env) = Return 1%Z
  /\ fst (Rls.run (network_of (Raise (http 401 "Unauthorized"))
                              (Return sample_rows))
                  sample_env) = Return 0%Z
  /\ fst (Rls.run (network_of (Raise (http 404 "Not Found"))
                              (Return sample_rows))
                  sample_env) = Return 0%Z.
Proof.
  split; [|split].
  - apply (proj1 (C7_http_error_classification
                    (network_of (Return sample_rows)
                                (Raise (http 500 "Internal Server Error")))
                    sample_env (conj eq_refl (conj eq_refl eq_refl)))
             (mkHttpError 500 "Internal Server Error")).
    + exact I.
    + reflexivity.
  - rewrite (proj1 (proj2 (C7_http_error_classification
                    (network_of (Raise (http 401 "Unauthorized"))
                                (Return sample_rows))
                    sample_env (conj eq_refl (conj eq_refl eq_refl))))
               sample_rows (mkHttpError 401 "Unauthorized")
               eq_refl eq_refl (or_introl eq_refl)).
    reflexivity.
  - rewrite (proj2 (proj2 (C7_http_error_classification
                    (network_of (Raise (http 404 "Not Found"))
                                (Return sample_rows))
                    sample_env (conj eq_refl (conj eq_refl eq_refl))))
               sample_rows (mkHttpError 404 "Not Found")
               eq_refl eq_refl).
    + reflexivity.
    + discriminate.
    + discriminate.
Defined.

(** C8.  With the configuration present and both requests answered with
    rows, if every restricted-visible row is an object carrying
    [privacy_level] and one of them is classified "private", the exit
    code is 1. *)
Theorem C8_private_row_visible_fails :
  forall network env rows sr_data,
    configured env ->
    restricted_response network env = Return (Rls.JList rows) ->
    elevated_response network env = Return sr_data ->
    Forall classified_row rows ->
    Exists private_row rows ->
    fst (Rls.run network env) = Return 1%Z.
Proof.
  intros network env rows sr_data Hconf Hanon Hsr Hall Hex.
  rewrite (RlsFacts.run_configured network env Hconf), Hanon, Hsr.
  unfold Rls.verdict. cbn [Rls.row_count].
  destruct (_ <? _)%nat; [reflexivity|].
  destruct (RlsFacts.private_rows_found rows Hall Hex) as (p & ps & Hp).
  assert (Hfirst : Rls.first_row_has_privacy_level (Rls.JList rows) = true).
  { destruct Hall as [|r rows' (items & -> & Hk) _]; [inversion Hex|].
    exact Hk. }
  rewrite Hfirst. cbn [Rls.rows_of].
  unfold Rls.bind at 1. unfold Rls.lift. rewrite Hp. reflexivity.
Qed.

Lemma C8_private_row_visible_witness :
  fst (Rls.run (network_of (Return sample_rows) (Return sample_rows))
               sample_env) = Return 1%Z.
Proof.
  apply (C8_private_row_visible_fails
           (network_of (Return sample_rows) (Return sample_rows))
           sample_env
           [row 1 "public"; row 2 "private"; row 3 "public"] sample_rows).
  - repeat split.
  - reflexivity.
  - reflexivity.
  - repeat constructor; eexists; (split; [reflexivity|reflexivity]).
  - apply Exists_cons_tl, Exists_cons_hd.
    eexists; split; reflexivity.
Defined.

(** C9, counterexample.  The elevated request would be answered with
    rows and the restricted request times out: [main] does not return 0,
    the exception leaves it uncaught and the process ends with status 1;
    an HTTP error 500 on the same request gives exit code 0. *)
Lemma C9_counterexample_restricted_timeout :
  elevated_response (network_of (Raise TimeoutError) (Return sample_rows))
                    sample_env = Return sample_rows
  /\ restricted_response
       (network_of (Raise TimeoutError) (Return sample_rows)) sample_env
     = Raise TimeoutError
  /\ fst (Rls.run (network_of (Raise TimeoutError) (Return sample_rows))
                  sample_env) = Raise TimeoutError
  /\ Rls.exit_status
       (fst (Rls.run (network_of (Raise TimeoutError) (Return sample_rows))
                     sample_env)) <> 0%Z
  /\ fst (Rls.run (network_of (Raise (http 500 "Internal Server Error"))
                              (Return sample_rows))
                  sample_env) = Return 0%Z.
Proof. repeat split. discriminate. Qed.

(** C9, as the code has it.  With the configuration present, an
    exception of a request that is not an [HTTPError] (a timeout, a
    network error) is not classified: it leaves [main] uncaught.  On the
    restricted request, the first one, nothing more is sent; on the
    elevated request it follows an answered restricted request.  The
    process then ends with status 1 in both cases. *)
Theorem C9_timeout_propagates :
  forall network env e,
    configured env -> not_http e ->
    (restricted_response network env = Raise e ->
     Rls.run network env = (Raise e, Rls.mkWorld 1 [])
     /\ Rls.exit_status (fst (Rls.run network env)) = 1%Z)
    /\ (answered (restricted_response network env) ->
        elevated_response network env = Raise e ->
        Rls.run network env = (Raise e, Rls.mkWorld 2 [])
        /\ Rls.exit_status (fst (Rls.run network env)) = 1%Z).
Proof.
  intros network env e Hconf Hne.
  rewrite (RlsFacts.run_configured network env Hconf).
  split.
  - intros ->. destruct e; try contradiction; split; reflexivity.
  - intros Hans ->.
    destruct (restricted_response network env) as [d0|[e0| | | | | | |]];
      try contradiction; destruct e; try contradiction; split; reflexivity.
Qed.

Lemma C9_timeout_propagates_witness :
  Rls.run (network_of (Raise TimeoutError) (Return sample_rows)) sample_env
  = (Raise TimeoutError, Rls.mkWorld 1 [])
  /\ Rls.run (network_of (Return sample_rows) (Raise (URLError "refused")))
             sample_env
     = (Raise (URLError "refused"), Rls.mkWorld 2 []).
Proof.
  split.
  - apply (proj1 (C9_timeout_propagates
                    (network_of (Raise TimeoutError) (Return sample_rows))
                    sample_env TimeoutError
                    (conj eq_refl (conj eq_refl eq_refl)) I)).
    reflexivity.
  - apply (proj2 (C9_timeout_propagates
                    (network_of (Return sample_rows)
                                (Raise (URLError "refused")))
                    sample_env (URLError "refused")
                    (conj eq_refl (conj eq_refl eq_refl)) I)).
    + exact I.
    + reflexivity.
Defined.

(** The cases of the specification: 3 rows against a 401; 3 rows against
    5 rows; missing configuration, with no request sent. *)
Example smoke_cases :
  fst (Rls.run (network_of (Raise (http 401 "Unauthorized"))
                           (Return sample_rows)) sample_env) = Return 0%Z
  /\ fst (Rls.run
            (network_of
               (Return (Rls.JList [Rls.JInt 1; Rls.JInt 2; Rls.JInt 3;
                                   Rls.JInt 4; Rls.JInt 5]))
               (Return (Rls.JList [Rls.JInt 1; Rls.JInt 2; Rls.JInt 3])))
            sample_env) = Return 1%Z
  /\ Rls.run (network_of (Return sample_rows) (Return sample_rows))
             (Rls.mkEnv (Some "https://db.example.org") None
                        (Some "service-key") None None)
     = (Return 2%Z,
        Rls.mkWorld 0
          [(Rls.Stderr, "Missing SUPABASE_URL/ANON_KEY/SERVICE_ROLE_KEY")]).
Proof. repeat split. Qed.

(* ================================================================== *)
(** * Facts for the further properties *)
(* ================================================================== *)

Module ExtraSummarizerFacts.
Import Summarizer SummarizerFacts.

Lemma fold_visit_add l st :
  fold_left visit_pair l st
  = add_summary st (fold_left visit_pair l empty_summary).
Proof.
  rewrite !fold_visit_closed. unfold add_summary. cbn.
  destruct st; reflexivity.
Qed.

Lemma spec_record_failed p :
  (sr_status (spec_record_of p) =? "failed") = is_failed p.
Proof.
  unfold spec_record_of, is_failed, status_is. cbn [sr_status].
  destruct (res_status (snd p)) as [s|]; [|reflexivity].
  destruct s; reflexivity.
Qed.

Lemma find_error_nonempty atts : find_error atts <> Some "".
Proof.
  induction atts as [|a atts IH]; cbn; [discriminate|].
  destruct (is_error_attachment a) eqn:E; [|exact IH].
  apply ClaimFacts.is_error_attachment_spec in E.
  destruct E as [_ (b & Hb & Hne)]. rewrite Hb. congruence.
Qed.

Lemma filter_status l (f : string -> bool) :
  List.length (filter (fun p : Spec * Result =>
                    match res_status (snd p) with
                    | Some s => f s | None => false end) l)
  = List.length (filter (fun r => match res_status r with
                    | Some s => f s | None => false end) (map snd l)).
Proof.
  rewrite filter_map_swap, length_map. reflexivity.
Qed.

End ExtraSummarizerFacts.

Module ExtraPyFacts.
Import PyFacts.

(** The space is a byte of no other white space character. *)
Lemma whitespace_tails :
  Forall (fun w => match Py.utf8 w with
                   | String _ p =>
                       existsb (Ascii.eqb " ") (list_ascii_of_string p) = false
                   | EmptyString => False
                   end)
         Py.whitespace.
Proof. repeat (constructor; [reflexivity|]). constructor. Qed.

Lemma startswith_before_space p :
  existsb (Ascii.eqb " ") (list_ascii_of_string p) = false ->
  forall s r,
    Py.startswith p (s ++ String " " r) = true -> Py.startswith p s = true.
Proof.
  induction p as [|a p IH]; intros H s r E; [reflexivity|].
  cbn [list_ascii_of_string existsb] in H.
  apply orb_false_elim in H as [Ha Hp].
  destruct s as [|b s]; cbn [append] in E;
    apply startswith_cons in E as [-> E].
  - rewrite Ascii.eqb_refl in Ha. discriminate.
  - apply startswith_cons. split; [reflexivity|]. exact (IH Hp s r E).
Qed.

Lemma space_length_before_space c p r :
  Py.space_length (String c p) = 0 ->
  Py.space_length (String c p ++ String " " r) = 0.
Proof.
  intro H. apply space_length_none. intros w Hin.
  pose proof (space_length_zero _ H w Hin) as Hw.
  pose proof whitespace_tails as F. rewrite Forall_forall in F.
  specialize (F w Hin). destruct (Py.utf8 w) as [|a q]; [contradiction|].
  destruct (Py.startswith (String a q) (String c p ++ String " " r)) eqn:E;
    [|reflexivity].
  cbn [append] in E. apply startswith_cons in E as [-> E].
  apply (startswith_before_space q F) in E.
  cbn [Py.startswith] in Hw. rewrite Ascii.eqb_refl, E in Hw. discriminate.
Qed.

(** A word that a space or the end follows is read as one run. *)
Lemma split_from_run piece :
  no_space piece = true ->
  forall cur rest,
    rest = "" \/ (exists r, rest = String " " r) ->
    Py.split_from 0 cur (piece ++ rest) = Py.split_from 0 (cur ++ piece) rest.
Proof.
  unfold no_space.
  induction piece as [|c p IH]; intros H cur rest Hrest.
  - cbn [append]. rewrite append_empty. reflexivity.
  - cbn [no_space_before] in H. apply andb_true_iff in H as [H1 H2].
    apply Nat.eqb_eq in H1. rewrite append_empty in H1.
    cbn [append]. rewrite split_from_step.
    + rewrite (IH H2 _ _ Hrest), append_assoc. reflexivity.
    + change (String c (p ++ rest)) with (String c p ++ rest)%string.
      destruct Hrest as [->|[r ->]].
      * rewrite append_empty. exact H1.
      * now apply space_length_before_space.
Qed.

Lemma split_from_end piece :
  piece <> "" -> Py.split_from 0 piece "" = [piece].
Proof. destruct piece; [contradiction|reflexivity]. Qed.

(** Joining words with one space and splitting again gives the words. *)
Lemma split_join pieces :
  Forall (fun piece => piece <> "" /\ no_space piece = true) pieces ->
  Py.split (Py.join " " pieces) = pieces.
Proof.
  unfold Py.split, Py.join.
  induction 1 as [|p pieces [Hne Hp] Hrest IH]; [reflexivity|].
  destruct pieces as [|q pieces].
  - cbn [concat].
    rewrite <- (append_empty p) at 1.
    rewrite (split_from_run p Hp) by (left; reflexivity). cbn [append].
    apply split_from_end, Hne.
  - cbn [concat] in *.
    rewrite (split_from_run p Hp) by (right; eexists; reflexivity).
    cbn [append].
    match goal with
    | |- context [Py.split_from 0 p (String " " ?r)] =>
        change (String " " r) with (Py.utf8 32 ++ r)%string
    end.
    rewrite split_from_space by (apply isspace_In; reflexivity).
    destruct p; [contradiction|]. cbn [Py.truthy app]. f_equal. exact IH.
Qed.

Lemma split_idempotent t : Py.split (Py.join " " (Py.split t)) = Py.split t.
Proof. apply split_join, split_pieces. Qed.

End ExtraPyFacts.

Module MarkdownFacts.
Import Markdown.

Lemma failure_lines_not_heading f :
  ~ In failures_heading (failure_lines f).
Proof.
  unfold failure_lines. intros [H|H]; [discriminate|].
  destruct (fr_error f) as [e|]; [|exact H].
  destruct (Py.truthy e); [|exact H].
  destruct H as [H|[]]. discriminate.
Qed.


Lemma count_heading_failure_lines fs :
  count_occ string_dec (flat_map failure_lines fs) failures_heading = 0.
Proof.
  apply count_occ_not_In. intro H. apply in_flat_map in H as (f & _ & H).
  exact (failure_lines_not_heading f H).
Qed.

(** The heading occurs once when there are failures, and never
    otherwise. *)
Lemma count_heading summary :
  count_occ string_dec (markdown_lines summary) failures_heading
  = match failures summary with [] => 0 | _ :: _ => 1 end.
Proof.
  unfold markdown_lines. rewrite count_occ_app.
  assert (H0 : count_occ string_dec [title_line; counters_line summary]
                         failures_heading = 0).
  { apply count_occ_not_In. intros [H|[H|[]]]; discriminate. }
  rewrite H0. destruct (failures summary) as [|f fs].
  - reflexivity.
  - rewrite count_occ_cons_eq by reflexivity.
    rewrite count_heading_failure_lines. reflexivity.
Qed.

Lemma heading_iff_failures summary :
  In failures_heading (markdown_lines summary) <-> failures summary <> [].
Proof.
  rewrite (count_occ_In string_dec), count_heading.
  destruct (failures summary); split; intro H; try congruence; lia.
Qed.

End MarkdownFacts.

Module ExtraFloatFacts.
Import PyFloat.
Local Open Scope Z_scope.

Lemma div_rne_ge K n d : 0 < d -> K * d <= n -> K <= div_rne n d.
Proof.
  intros Hd Hn. unfold div_rne.
  assert (K <= n / d) by (apply Z.div_le_lower_bound; lia).
  destruct (2 * (n mod d) ?= d); [destruct (Z.even _)| |]; lia.
Qed.

Lemma quotient_exponent_large n :
  1000 * 2 ^ 1024 <= n ->
  971 <= quotient_exponent n 1000
  /\ 1000 * 2 ^ quotient_exponent n 1000 <= n.
Proof.
  intro Hn.
  assert (Hp : 0 < 2 ^ 1024) by (apply Z.pow_pos_nonneg; lia).
  assert (H0 : 0 < n) by lia.
  assert (Hlog : 1033 <= Z.log2 n).
  { apply Z.log2_le_pow2; [exact H0|].
    replace 1033 with (9 + 1024) by reflexivity.
    rewrite Z.pow_add_r by lia. change (2 ^ 9) with 512. lia. }
  pose proof (Z.log2_spec n H0) as [Hlo _].
  unfold quotient_exponent. change (Z.log2 1000) with 9.
  set (ln := Z.log2 n) in *.
  assert (He : forall e, 971 <= e <= ln - 61 ->
                         971 <= Z.max e (-1074)
                         /\ 1000 * 2 ^ Z.max e (-1074) <= n).
  { intros e [He1 He2]. rewrite Z.max_l by lia. split; [exact He1|].
    assert (2 ^ e <= 2 ^ (ln - 61)) by (apply Z.pow_le_mono_r; lia).
    assert (2 ^ ln = 2 ^ (ln - 61) * 2 ^ 61).
    { rewrite <- Z.pow_add_r by lia. f_equal. lia. }
    change (2 ^ 61) with 2305843009213693952 in *.
    assert (0 < 2 ^ (ln - 61)) by (apply Z.pow_pos_nonneg; lia).
    nia. }
  destruct (_ <? _); apply He; lia.
Qed.

(** Beyond [1000 * 2^1024] the quotient by 1000 is no float. *)
Lemma int_true_div_overflow a :
  1000 * 2 ^ 1024 <= Z.abs a -> int_true_div a 1000 = Raise OverflowError.
Proof.
  intro Hbig.
  assert (Hp : 0 < 2 ^ 1024) by (apply Z.pow_pos_nonneg; lia).
  destruct (quotient_exponent_large _ Hbig) as [He Hle].
  unfold int_true_div.
  replace (1000 =? 0) with false by reflexivity.
  replace (a =? 0) with false by (symmetry; apply Z.eqb_neq; lia).
  change (Z.abs 1000) with 1000.
  set (n := Z.abs a) in *. set (e := quotient_exponent n 1000) in *.
  rewrite (Z.max_l 0 (- e)) by lia. rewrite (Z.max_r 0 e) by lia.
  change (2 ^ 0) with 1. rewrite Z.mul_1_r.
  set (m := div_rne n (1000 * 2 ^ e)).
  assert (Hpe : 0 < 2 ^ e) by (apply Z.pow_pos_nonneg; lia).
  assert (Hgoal : 2 ^ 1024 <= m * 2 ^ e).
  { destruct (Z.le_gt_cases e 1024) as [Hs|Hl].
    - assert (Hm : 2 ^ (1024 - e) <= m).
      { apply div_rne_ge; [lia|].
        replace (2 ^ (1024 - e) * (1000 * 2 ^ e))
          with (1000 * (2 ^ (1024 - e) * 2 ^ e)) by ring.
        rewrite <- Z.pow_add_r by lia.
        replace (1024 - e + e) with 1024 by lia. exact Hbig. }
      replace (2 ^ 1024) with (2 ^ (1024 - e) * 2 ^ e)
        by (rewrite <- Z.pow_add_r by lia; f_equal; lia).
      apply Z.mul_le_mono_nonneg_r; lia.
    - assert (Hm : 1 <= m) by (apply div_rne_ge; lia).
      assert (2 ^ 1024 <= 2 ^ e) by (apply Z.pow_le_mono_r; lia).
      nia. }
  apply Z.leb_le in Hgoal. rewrite Hgoal. reflexivity.
Qed.

(** Division by 1000 raises nothing but [OverflowError]. *)
Lemma int_true_div_1000_raise a e :
  int_true_div a 1000 = Raise e -> e = OverflowError.
Proof.
  unfold int_true_div. replace (1000 =? 0) with false by reflexivity.
  destruct (a =? 0); [discriminate|].
  destruct (_ <=? _); [|discriminate]. now intros [= <-].
Qed.

End ExtraFloatFacts.

Module ExtraJunitFacts.
Import Junit.

Lemma testcase_raise summary rec e :
  testcase summary rec = Raise e -> e = OverflowError.
Proof.
  unfold testcase.
  destruct (PyFloat.int_true_div (sr_duration_ms rec) 1000) as [x|e']
    eqn:E; cbn [Result.bind].
  - destruct (_ =? "failed"); [|destruct (_ =? "skipped")]; discriminate.
  - intros [= <-]. exact (ExtraFloatFacts.int_true_div_1000_raise _ _ E).
Qed.

Lemma mapM_testcase_overflow summary l :
  Exists (fun rec => beyond_float (sr_duration_ms rec)) l ->
  Result.mapM (testcase summary) l = Raise OverflowError.
Proof.
  induction 1 as [rec l Hbig|rec l _ IH]; cbn [Result.mapM].
  - unfold testcase at 1.
    rewrite (ExtraFloatFacts.int_true_div_overflow _ Hbig). reflexivity.
  - destruct (testcase summary rec) as [c|e] eqn:E; cbn [Result.bind].
    + rewrite IH. reflexivity.
    + rewrite (testcase_raise _ _ _ E). reflexivity.
Qed.

(** The annotation of a testcase follows the status of its entry. *)
Lemma testcase_children summary rec child :
  testcase summary rec = Return child ->
  tag child = "testcase"
  /\ has_child "failure" child = (sr_status rec =? "failed")
  /\ has_child "skipped" child = (sr_status rec =? "skipped")
  /\ (sr_status rec = "skipped" -> children child = [skipped_annotation])
  /\ (sr_status rec <> "failed" -> sr_status rec <> "skipped" ->
      children child = []).
Proof.
  unfold testcase.
  destruct (PyFloat.int_true_div _ _) as [x|e]; cbn [Result.bind];
    [|discriminate].
  destruct (sr_status rec =? "failed") eqn:Ef;
    [|destruct (sr_status rec =? "skipped") eqn:Es];
    intros [= <-]; unfold has_child; cbn.
  - apply String.eqb_eq in Ef. rewrite Ef. cbn.
    repeat split; try reflexivity; intros; congruence.
  - apply String.eqb_eq in Es. repeat split; try reflexivity.
    intros _ H. congruence.
  - apply String.eqb_neq in Es. repeat split; try reflexivity.
    intro; contradiction.
Qed.

Lemma Forall2_filter_length {A B : Type} (f : A -> bool) (g : B -> bool)
  (l : list A) (l' : list B) :
  Forall2 (fun x y => g y = f x) l l' ->
  List.length (filter g l') = List.length (filter f l).
Proof.
  induction 1 as [|x y l l' E _ IH]; [reflexivity|].
  cbn [filter]. rewrite E. destruct (f x); cbn [List.length]; congruence.
Qed.

Lemma spec_record_skipped p :
  (sr_status (spec_record_of p) =? "skipped")
  = Summarizer.status_is (res_status (snd p)) "skipped".
Proof.
  unfold spec_record_of, Summarizer.status_is. cbn [sr_status].
  destruct (res_status (snd p)) as [s|]; [|reflexivity].
  destruct s; reflexivity.
Qed.

(** The renderer returns a tree for the summary of a report whose
    durations are below [2^52] ms. *)
Lemma write_junit_xml_total utcnow data :
  Forall (fun r => (Z.abs (Py.get (res_duration r) 0) < 2 ^ 52)%Z)
         (result_nodes data) ->
  exists tree,
    write_junit_xml utcnow (Summarizer.summarize_playwright_json data)
    = Return tree.
Proof.
  intro Hsmall. unfold write_junit_xml.
  destruct (JunitFacts.mapM_total
              (testcase (Summarizer.summarize_playwright_json data))
              (specs (Summarizer.summarize_playwright_json data)))
    as [tcs E].
  - rewrite SummarizerFacts.summarize_closed. cbn [specs].
    apply Forall_forall. intros rec Hin.
    apply in_map_iff in Hin as (p & <- & Hp).
    apply JunitFacts.testcase_total. cbn [spec_record_of sr_duration_ms].
    unfold result_nodes in Hsmall. rewrite Forall_forall in Hsmall.
    apply Hsmall, in_map, Hp.
  - rewrite E. cbn. eexists; reflexivity.
Qed.

End ExtraJunitFacts.

Module ExtraRlsFacts.
Import Rls.

Lemma configured_dec env : {configured env} + {~ configured env}.
Proof.
  unfold configured.
  destruct (is_set (URL env)), (is_set (ANON env)), (is_set (SR env));
    (left; repeat split; reflexivity)
    || (right; intros (H1 & H2 & H3); discriminate).
Qed.

Lemma run_unconfigured network env :
  ~ configured env ->
  run network env
  = (Return 2%Z,
     mkWorld 0 [(Stderr, "Missing SUPABASE_URL/ANON_KEY/SERVICE_ROLE_KEY")]).
Proof.
  intro H. unfold run, main, configured in *.
  destruct (is_set (URL env)), (is_set (ANON env)), (is_set (SR env));
    try reflexivity.
  exfalso. apply H. repeat split.
Qed.

Lemma first_row_unclassified_false data :
  first_row_unclassified data -> first_row_has_privacy_level data = false.
Proof.
  intro H. destruct data as [| | | | |rows|]; try reflexivity.
  destruct rows as [|r rest]; [reflexivity|].
  destruct r; try reflexivity. apply (H _ _ eq_refl).
Qed.

Lemma private_rows_none rows :
  Forall classified_row rows -> Forall (fun r => ~ private_row r) rows ->
  private_rows rows = Return [].
Proof.
  induction 1 as [|r rows (items & -> & _) _ IH]; intro Hn.
  - reflexivity.
  - inversion Hn as [|? ? Hr Hrest]; subst.
    cbn [private_rows]. rewrite (IH Hrest). cbn [Result.bind].
    destruct (eq_str (dict_get "privacy_level" items) "private") eqn:E;
      [|reflexivity].
    exfalso. apply Hr. exists items. split; [reflexivity|].
    unfold eq_str in E. destruct (dict_get _ _); try discriminate.
    apply String.eqb_eq in E. now subst.
Qed.

Lemma private_rows_raises rows e :
  private_rows rows = Raise e -> e = AttributeError.
Proof.
  induction rows as [|r rows IH]; [discriminate|].
  cbn [private_rows]. destruct r; try (now intros [= <-]).
  destruct (private_rows rows) as [ps|e']; cbn [Result.bind].
  - destruct (eq_str _ _); discriminate.
  - intros [= <-]. apply IH. reflexivity.
Qed.

Lemma private_rows_not_object rows :
  Exists not_object rows -> private_rows rows = Raise AttributeError.
Proof.
  induction 1 as [r rows Hr|r rows _ IH]; cbn [private_rows].
  - destruct r; try reflexivity. exfalso. exact (Hr _ eq_refl).
  - destruct r; try reflexivity. rewrite IH. reflexivity.
Qed.

(** What [verdict] returns and prints. *)
Lemma verdict_shape anon sr w :
  requests (snd (verdict anon sr w)) = requests w
  /\ ((exists c line,
         fst (verdict anon sr w) = Return c
         /\ output (snd (verdict anon sr w)) = output w ++ [line]
         /\ (c <> 2%Z) /\ report_line c [line])
      \/ (fst (verdict anon sr w) = Raise AttributeError
          /\ output (snd (verdict anon sr w)) = output w)).
Proof.
  destruct anon as [anon_data anon_err], sr as [sr_data sr_err].
  unfold verdict.
  destruct sr_err as [e|].
  { split; [reflexivity|]. left. eexists 1%Z, _. cbn.
    repeat split; try discriminate.
    eexists. right. left. repeat split. }
  destruct anon_err as [e|].
  { destruct ((code e =? 401) || (code e =? 403))%Z;
      (split; [reflexivity|]); left; eexists 0%Z, _; cbn;
      (repeat split; try discriminate); eexists; left;
      (split; [reflexivity|]); [left|right]; repeat split. }
  cbv zeta.
  destruct (row_count sr_data <? row_count anon_data)%nat.
  { split; [reflexivity|]. left. eexists 1%Z, _. cbn.
    repeat split; try discriminate.
    eexists. right. left. repeat split. }
  assert (Hok : forall w',
             requests w' = requests w -> output w' = output w ->
             let r := bind (print Stdout
                    ("[OK] RLS smoke: anon_count="
                       ++ Py.str (Z.of_nat (row_count anon_data))
                       ++ ", service_role_count="
                       ++ Py.str (Z.of_nat (row_count sr_data)))%string)
                    (fun _ => ret 0%Z) w' in
             requests (snd r) = requests w
             /\ ((exists c line,
                     fst r = Return c /\ output (snd r) = output w ++ [line]
                     /\ c <> 2%Z /\ report_line c [line])
                 \/ (fst r = Raise AttributeError
                     /\ output (snd r) = output w))).
  { intros w' Hr Ho. cbn. split; [exact Hr|]. left. eexists 0%Z, _.
    rewrite Ho. repeat split; try discriminate.
    eexists. left. split; [reflexivity|]. left. repeat split. }
  destruct (first_row_has_privacy_level anon_data); [|apply Hok; reflexivity].
  unfold bind at 1. unfold lift.
  destruct (private_rows (rows_of anon_data)) as [[|p ps]|e] eqn:E.
  - apply Hok; reflexivity.
  - split; [reflexivity|]. left. eexists 1%Z, _. cbn.
    repeat split; try discriminate.
    eexists. right. left. repeat split.
  - rewrite (private_rows_raises _ _ E). split; [reflexivity|].
    right. split; reflexivity.
Qed.

End ExtraRlsFacts.

Module StepsFacts.
Import Os SupabaseUtils.

Section Facts.
Variable popen : list string -> string -> Z.

Lemma run_each_succeed steps : forall w,
  all_succeed popen (executed w) steps ->
  run_each popen steps w
  = (Done tt,
     mkWorld (executed w ++ steps) (printed w ++ map echo steps)
             (made w) (written w)).
Proof.
  induction steps as [|s rest IH]; intros w H.
  - cbn. rewrite !app_nil_r. destruct w; reflexivity.
  - cbn [run_each]. unfold bind, run_shell.
    pose proof (H 0 ltac:(cbn; lia)) as H0. cbn in H0.
    rewrite app_nil_r in H0. rewrite H0. cbn [Z.eqb].
    rewrite IH.
    + cbn [executed printed made written map].
      rewrite <- !app_assoc. reflexivity.
    + intros k Hk. cbn [executed]. rewrite <- app_assoc.
      apply (H (S k)). cbn. lia.
Qed.

Lemma run_each_fail steps : forall w k code,
  fails_at popen (executed w) steps k code ->
  run_each popen steps w
  = (SystemExit code,
     mkWorld (executed w ++ firstn (S k) steps)
             (printed w ++ map echo (firstn (S k) steps))
             (made w) (written w)).
Proof.
  induction steps as [|s rest IH]; intros w k code (Hk & Hbefore & Hat & Hne).
  - cbn in Hk. lia.
  - cbn [run_each]. unfold bind, run_shell. destruct k as [|k].
    + cbn in Hat. rewrite app_nil_r in Hat. rewrite Hat.
      apply Z.eqb_neq in Hne. rewrite Hne. reflexivity.
    + pose proof (Hbefore 0 ltac:(lia)) as H0. cbn in H0.
      rewrite app_nil_r in H0. rewrite H0. cbn [Z.eqb].
      rewrite (IH _ k code).
      * cbn [executed printed made written map firstn].
        rewrite <- !app_assoc. reflexivity.
      * cbn [executed]. repeat split.
        -- cbn in Hk. lia.
        -- intros j Hj. rewrite <- app_assoc.
           apply (Hbefore (S j)). lia.
        -- rewrite <- app_assoc. exact Hat.
        -- exact Hne.
Qed.

(** Whatever the commands return, [run_each] runs a prefix of the steps
    and ends by returning or by [SystemExit] with the code, not 0, of
    the last command run. *)
Lemma run_each_shape steps : forall w,
  exists n,
    n <= List.length steps
    /\ snd (run_each popen steps w)
       = mkWorld (executed w ++ firstn n steps)
                 (printed w ++ map echo (firstn n steps))
                 (made w) (written w)
    /\ (fst (run_each popen steps w) = Done tt /\ n = List.length steps
        \/ exists code,
             fst (run_each popen steps w) = SystemExit code
             /\ code <> 0%Z /\ 0 < n
             /\ code = popen (executed w ++ firstn (n - 1) steps)
                             (nth (n - 1) steps "")).
Proof.
  induction steps as [|s rest IH]; intro w.
  - exists 0. cbn. rewrite !app_nil_r. split; [lia|].
    split; [destruct w; reflexivity|]. left. auto.
  - cbn [run_each]. unfold bind, run_shell.
    destruct (popen (executed w) s =? 0)%Z eqn:E.
    + destruct (IH (mkWorld (executed w ++ [s]) (printed w ++ [echo s])
                            (made w) (written w)))
        as (n & Hn & Hw & Hr).
      exists (S n). cbn [List.length]. split; [lia|].
      unfold echo in *. cbn [fst snd] in *.
      split.
      * rewrite Hw. cbn [executed printed made written firstn map].
        rewrite <- !app_assoc. reflexivity.
      * destruct Hr as [[Hr ->]|(code & Hr & Hne & Hpos & Hcode)].
        -- left. split; [exact Hr|reflexivity].
        -- right. exists code. repeat split; try assumption; try lia.
           rewrite Hcode. cbn [executed]. rewrite <- app_assoc.
           destruct n as [|n]; [lia|].
           cbn [Nat.sub firstn nth app]. rewrite Nat.sub_0_r. reflexivity.
    + exists 1. cbn [List.length]. split; [lia|]. cbn [fst snd firstn map].
      split; [reflexivity|]. right. eexists. split; [reflexivity|].
      apply Z.eqb_neq in E. repeat split; try assumption; try lia.
      cbn. rewrite app_nil_r. reflexivity.
Qed.

End Facts.
End StepsFacts.

Module CliFacts.
Import Os Cli.

Section Facts.
Variable m : Machine.

Lemma run_phase_succeed name steps w :
  all_succeed (m_popen m) (executed w) steps ->
  run_phase (m_popen m) name steps w
  = (Done tt,
     mkWorld (executed w ++ steps)
             (printed w ++ phase_lines name steps (List.length steps))
             (made w) (written w)).
Proof.
  intro H. unfold run_phase, phase_lines. destruct steps as [|s rest].
  - cbn. rewrite !app_nil_r. destruct w; reflexivity.
  - unfold bind, print, SupabaseUtils.run_steps. cbn [Py.get].
    rewrite StepsFacts.run_each_succeed by exact H.
    cbn [executed printed made written]. rewrite firstn_all.
    rewrite <- app_assoc. reflexivity.
Qed.

Lemma run_phase_fail name steps w k code :
  fails_at (m_popen m) (executed w) steps k code ->
  run_phase (m_popen m) name steps w
  = (SystemExit code,
     mkWorld (executed w ++ firstn (S k) steps)
             (printed w ++ phase_lines name steps (S k))
             (made w) (written w)).
Proof.
  intro H. unfold run_phase, phase_lines. destruct steps as [|s rest].
  - destruct H as [H _]. cbn in H. lia.
  - unfold bind, print, SupabaseUtils.run_steps. cbn [Py.get].
    rewrite (StepsFacts.run_each_fail _ _ _ k code) by exact H.
    cbn [executed printed made written].
    rewrite <- app_assoc. reflexivity.
Qed.

(** When the pre-steps succeed the test command is run, whatever it
    returns, and the aggregation starts. *)
Lemma main_pre_ok config :
  all_succeed (m_popen m) [] (pre_of (effective config)) ->
  exists lines,
    run_main m config
    = aggregate_m m (effective config)
        (mkWorld (history_after_test m (effective config)) lines
                 [artifacts_of (m_Path m) (effective config)] []).
Proof.
  intro Hpre. unfold run_main, main. cbv zeta.
  set (cfg := effective config) in *.
  unfold bind at 1. unfold mkdir at 1. cbn [start executed printed made
    written app].
  unfold bind at 1. rewrite run_phase_succeed by exact Hpre.
  cbn [executed printed made written app].
  unfold bind at 1. unfold print at 1.
  cbn [executed printed made written app].
  unfold bind at 1. unfold system at 1.
  cbn [executed printed made written].
  unfold bind at 1.
  destruct (m_os_system m _ _ =? 0)%Z; unfold ret, print;
    cbn [executed printed made written]; eexists; reflexivity.
Qed.

Lemma main_pre_fail config k code :
  fails_at (m_popen m) [] (pre_of (effective config)) k code ->
  run_main m config
  = (SystemExit code,
     mkWorld (firstn (S k) (pre_of (effective config)))
             (phase_lines "pre-steps" (pre_of (effective config)) (S k))
             [artifacts_of (m_Path m) (effective config)] []).
Proof.
  intro Hpre. unfold run_main, main. cbv zeta.
  unfold bind at 1. unfold mkdir at 1. cbn [start executed printed made
    written app].
  unfold bind at 1. rewrite (run_phase_fail _ _ _ k code) by exact Hpre.
  reflexivity.
Qed.

Lemma aggregate_missing cfg lines dirs :
  report_missing m cfg ->
  aggregate_m m cfg (mkWorld (history_after_test m cfg) lines dirs [])
  = (SystemExit 2%Z,
     mkWorld (history_after_test m cfg)
             (lines ++ [(Stderr,
                         "ERROR: Could not find Playwright JSON report.")])
             dirs []).
Proof.
  intros [H1 H2]. unfold aggregate_m, aggregate.
  unfold bind at 1. unfold locate_report, bind, exists_. cbn [executed].
  cbv zeta in H1, H2. rewrite H1. cbv beta iota. cbn [executed].
  rewrite H2. reflexivity.
Qed.

Lemma locate_found cfg p w :
  executed w = history_after_test m cfg ->
  report_found m cfg p ->
  locate_report (m_Path m) (m_joinpath m) (m_path_exists m) cfg w
  = (Done p, w).
Proof.
  intros Hw H. unfold locate_report, bind, exists_. rewrite Hw.
  destruct H as [[H1 ->]|(H1 & H2 & ->)]; cbv zeta in *.
  - rewrite H1. reflexivity.
  - rewrite H1. cbv beta iota. rewrite Hw, H2. reflexivity.
Qed.

(** The aggregation once the report is found and read, up to the
    post-steps. *)
Lemma aggregate_found cfg p data tree lines dirs :
  report_found m cfg p ->
  m_load_report m (history_after_test m cfg) p = Return data ->
  Junit.write_junit_xml (m_utcnow m)
    (Summarizer.summarize_playwright_json data) = Return tree ->
  exists lines',
    aggregate_m m cfg (mkWorld (history_after_test m cfg) lines dirs [])
    = bind (run_phase (m_popen m) "post-steps" (post_of cfg))
        (fun _ =>
           if (0 <? failed (Summarizer.summarize_playwright_json data))%Z
           then sys_exit 1%Z else ret tt)
        (mkWorld (history_after_test m cfg) lines' dirs
           [(m_joinpath m (artifacts_of (m_Path m) cfg) "SUMMARY.md",
             Text (Markdown.write_markdown
                     (Summarizer.summarize_playwright_json data)));
            (m_joinpath m (artifacts_of (m_Path m) cfg) "junit.xml",
             Xml tree)]).
Proof.
  intros Hfound Hload Hjunit. unfold aggregate_m, aggregate.
  unfold bind at 1. rewrite (locate_found cfg p) by (reflexivity || exact Hfound).
  unfold bind at 1. unfold summarize_playwright_json at 1.
  cbn [executed]. rewrite Hload.
  unfold bind at 1. unfold write_markdown at 1, write at 1.
  cbn [executed printed made written app].
  unfold bind at 1. unfold write_junit_xml at 1. rewrite Hjunit.
  unfold write at 1. cbn [executed printed made written app].
  unfold bind at 1. unfold print at 1.
  cbn [executed printed made written app].
  unfold bind at 1. unfold print at 1.
  cbn [executed printed made written app].
  eexists. reflexivity.
Qed.

Lemma aggregate_unreadable cfg p e lines dirs :
  report_found m cfg p ->
  m_load_report m (history_after_test m cfg) p = Raise e ->
  aggregate_m m cfg (mkWorld (history_after_test m cfg) lines dirs [])
  = (Uncaught e, mkWorld (history_after_test m cfg) lines dirs []).
Proof.
  intros Hfound Hload. unfold aggregate_m, aggregate.
  unfold bind at 1. rewrite (locate_found cfg p) by (reflexivity || exact Hfound).
  unfold bind at 1. unfold summarize_playwright_json at 1.
  cbn [executed]. rewrite Hload. reflexivity.
Qed.

End Facts.
End CliFacts.

(* ================================================================== *)
(** * Further properties of the summarizer *)
(* ================================================================== *)

(** X1.  Summaries compose: the summary of two lists of suites put end
    to end is the summary of the first followed by that of the second. *)
Theorem X1_summary_of_concatenation :
  forall a b,
    Summarizer.summarize_playwright_json (mkReport (a ++ b))
    = add_summary (Summarizer.summarize_playwright_json (mkReport a))
                  (Summarizer.summarize_playwright_json (mkReport b)).
Proof.
  intros a b. unfold Summarizer.summarize_playwright_json.
  cbn [report_suites]. rewrite !SummarizerFacts.walk_suites_flat.
  rewrite flat_map_app, fold_left_app.
  apply ExtraSummarizerFacts.fold_visit_add.
Qed.

(** X2.  Nesting is invisible in the summary: a suite with nested suites
    gives the summary of the same specs in a flat suite followed by the
    nested suites raised to the top. *)
Theorem X2_nested_suites_flatten :
  forall sp subs rest,
    Summarizer.summarize_playwright_json
      (mkReport (mkSuite sp subs :: rest))
    = Summarizer.summarize_playwright_json
        (mkReport (mkSuite sp [] :: subs ++ rest)).
Proof.
  intros sp subs rest. unfold Summarizer.summarize_playwright_json.
  cbn [report_suites]. rewrite !SummarizerFacts.walk_suites_flat.
  cbn [flat_map suite_results]. rewrite flat_map_app, app_nil_r, !app_assoc.
  reflexivity.
Qed.

(** X3.  A tree without Result nodes, whatever its suites, specs and
    tests, gives the zero summary with empty lists. *)
Theorem X3_no_results_zero_summary :
  forall data,
    count_results data = 0 ->
    Summarizer.summarize_playwright_json data = empty_summary.
Proof.
  intros data H. rewrite SummarizerFacts.summarize_closed.
  rewrite <- SummarizerFacts.length_report_results in H.
  apply length_zero_iff_nil in H. rewrite H. reflexivity.
Qed.

Lemma X3_no_results_witness :
  Summarizer.summarize_playwright_json
    (mkReport [mkSuite [mkSpec (Some "S") None [mkTest []]]
                       [mkSuite [] []]])
  = empty_summary.
Proof. apply X3_no_results_zero_summary. reflexivity. Defined.

(** X4.  The failures are the failed [specs] records, in the same order
    with the same titles and durations. *)
Theorem X4_failures_match_failed_specs :
  forall data,
    let s := Summarizer.summarize_playwright_json data in
    map (fun f => (fr_title f, fr_duration_ms f)) (failures s)
    = map (fun rec => (sr_title rec, sr_duration_ms rec)) (failed_specs s).
Proof.
  intro data. rewrite SummarizerFacts.summarize_closed. cbv zeta.
  unfold failed_specs. cbn [specs failures].
  rewrite filter_map_swap, !map_map.
  assert (E : forall l,
             filter (fun p => sr_status (spec_record_of p) =? "failed") l
             = filter is_failed l)
    by (intro l; apply filter_ext;
        intro p; apply ExtraSummarizerFacts.spec_record_failed).
  rewrite E. reflexivity.
Qed.

(** X5.  No failure record of a summary has an empty error text, and no
    [specs] record has an empty status. *)
Theorem X5_records_without_empty_fields :
  forall data,
    let s := Summarizer.summarize_playwright_json data in
    (forall f, In f (failures s) -> fr_error f <> Some "")
    /\ (forall rec, In rec (specs s) -> sr_status rec <> "").
Proof.
  intro data. rewrite SummarizerFacts.summarize_closed. cbv zeta.
  cbn [specs failures]. split.
  - intros f Hin. apply in_map_iff in Hin as (p & <- & _).
    apply ExtraSummarizerFacts.find_error_nonempty.
  - intros rec Hin. apply in_map_iff in Hin as (p & <- & _).
    unfold spec_record_of. cbn [sr_status].
    destruct (res_status (snd p)) as [s|]; [|discriminate].
    destruct s; cbn; discriminate.
Qed.

(** X6.  The buckets by status: passed counts the results of status
    "passed", failed those of status "failed", and skipped those of
    status "skipped", "timedOut" or "interrupted" together. *)
Theorem X6_bucket_counts_by_status :
  forall data,
    let s := Summarizer.summarize_playwright_json data in
    passed s = count_status ["passed"] (result_nodes data)
    /\ failed s = count_status ["failed"] (result_nodes data)
    /\ skipped s
       = count_status ["skipped"; "timedOut"; "interrupted"]
                      (result_nodes data).
Proof.
  intro data. rewrite SummarizerFacts.summarize_closed. cbv zeta.
  cbn [passed failed skipped]. unfold countZ, count_status, result_nodes.
  repeat split; rewrite <- ExtraSummarizerFacts.filter_status;
    do 2 f_equal; apply filter_ext; intros [sp r];
    unfold is_passed, is_failed, is_skipped, Summarizer.status_in_skipped,
      Summarizer.status_is; cbn [snd existsb];
    destruct (res_status r); rewrite ?orb_false_r, ?orb_assoc; reflexivity.
Qed.

(* ================================================================== *)
(** * Further properties of the Markdown renderer *)
(* ================================================================== *)

(** X7.  Normalising a title is idempotent: splitting the normalised
    title gives the same words, and a spec without title path whose title
    is replaced by its display title has the same display title.  For a
    title that is the text [l], the words are those that [str.split] on
    the code points of [l] gives. *)
Theorem X7_title_normalisation_idempotent :
  (forall t : string, Py.split (Py.join " " (Py.split t)) = Py.split t)
  /\ (forall title tests,
        let d := Summarizer.display_title (mkSpec title None tests) in
        Summarizer.display_title (mkSpec (Some d) None tests) = d)
  /\ (forall l,
        Forall code_point l ->
        Py.split (Py.join " " (Py.split (encode l)))
        = map encode (split_points l)).
Proof.
  assert (Hidem : forall x, Py.split (Py.join " " (Py.split x)) = Py.split x)
    by (intro x; apply ExtraPyFacts.split_join, PyFacts.split_pieces).
  split; [exact Hidem|split].
  - intros title tests.
    unfold Summarizer.display_title, Summarizer.spec_title_of.
    cbn [spec_title spec_titlePath Py.get].
    destruct title as [x|]; cbn [Py.get]; [|reflexivity].
    destruct (Py.truthy (Py.join " " (Py.split x))) eqn:E.
    + rewrite Hidem, E. reflexivity.
    + rewrite E. reflexivity.
  - intros l Hl. rewrite Hidem. exact (PyFacts.split_encode l Hl).
Qed.

Lemma X7_title_normalisation_witness :
  Py.split (Py.join " " (Py.split (encode accented_title)))
  = map encode (split_points accented_title).
Proof.
  apply (proj2 (proj2 X7_title_normalisation_idempotent) accented_title).
  unfold code_point, accented_title. repeat constructor.
Defined.



(** X9.  For the summary of a report, the Markdown has the "## Failures"
    section exactly when the failed counter is positive: when at least
    one result has status "failed". *)
Theorem X9_markdown_section_iff_failed :
  forall data,
    let s := Summarizer.summarize_playwright_json data in
    In Markdown.failures_heading (Markdown.markdown_lines s)
    <-> (0 < failed s)%Z.
Proof.
  intro data. cbv zeta.
  rewrite MarkdownFacts.heading_iff_failures.
  rewrite SummarizerFacts.summarize_closed. cbv zeta.
  cbn [failures failed]. unfold countZ.
  destruct (filter is_failed (report_results data));
    cbn [map List.length]; split; intro H; try congruence; try lia.
Qed.


(* ================================================================== *)
(** * Further properties of the JUnit renderer *)
(* ================================================================== *)

(** X11.  In the JUnit tree, the child of an entry of status "skipped"
    has one empty [skipped] element, without attribute, text or child,
    and the child of an entry of any status other than "failed" and
    "skipped" (so "passed", "timedOut", "interrupted", "unknown") has no
    annotation at all. *)
Theorem X11_junit_skipped_and_plain_children :
  forall utcnow summary tree,
    Junit.write_junit_xml utcnow summary = Return tree ->
    Forall2
      (fun rec child =>
         (sr_status rec = "skipped" ->
          Junit.children child = [skipped_annotation])
         /\ (sr_status rec <> "failed" -> sr_status rec <> "skipped" ->
             Junit.children child = []))
      (specs summary) (Junit.children tree).
Proof.
  intros utcnow summary tree. unfold Junit.write_junit_xml.
  destruct (Result.mapM _ _) as [tcs|e] eqn:E; cbn; [|discriminate].
  intros [= <-]. cbn. apply JunitFacts.mapM_Forall2 in E.
  eapply Forall2_impl; [|exact E].
  intros rec child H.
  destruct (ExtraJunitFacts.testcase_children _ _ _ H) as (_ & _ & _ & H1 & H2).
  split; assumption.
Qed.

Lemma X11_junit_skipped_witness :
  exists tree,
    Junit.write_junit_xml "2024-01-01T00:00:00" skipped_summary
    = Return tree
    /\ Forall2
         (fun rec child =>
            (sr_status rec = "skipped" ->
             Junit.children child = [skipped_annotation])
            /\ (sr_status rec <> "failed" -> sr_status rec <> "skipped" ->
                Junit.children child = []))
         (specs skipped_summary) (Junit.children tree).
Proof.
  eexists. split; [reflexivity|].
  apply (X11_junit_skipped_and_plain_children "2024-01-01T00:00:00"
           skipped_summary _ eq_refl).
Defined.

(** X12.  The JUnit tree of the summary of a report whose durations are
    below [2^52] ms is consistent with its counters: [tests] is the number
    of [testcase] children, one for each Result node, and [failures] the
    number of children with a [failure] element; but [skipped] counts the
    results of status "skipped", "timedOut" and "interrupted", while only
    those of status "skipped" have a [skipped] element. *)
Theorem X12_junit_counters_and_children :
  forall utcnow data,
    Forall (fun r => (Z.abs (Py.get (res_duration r) 0) < 2 ^ 52)%Z)
           (result_nodes data) ->
    exists tree,
      Junit.write_junit_xml utcnow
        (Summarizer.summarize_playwright_json data) = Return tree
      /\ List.length (Junit.children tree) = count_results data
      /\ Junit.attr "tests" (Junit.attrib tree)
         = Some (Py.str (Z.of_nat (List.length (Junit.children tree))))
      /\ Junit.attr "failures" (Junit.attrib tree)
         = Some (Py.str (count_with_child "failure" (Junit.children tree)))
      /\ Junit.attr "skipped" (Junit.attrib tree)
         = Some (Py.str (count_status ["skipped"; "timedOut"; "interrupted"]
                                      (result_nodes data)))
      /\ count_with_child "skipped" (Junit.children tree)
         = count_status ["skipped"] (result_nodes data).
Proof.
  intros utcnow data Hsmall.
  rewrite SummarizerFacts.summarize_closed. cbv zeta.
  unfold Junit.write_junit_xml. cbn [specs total failed skipped].
  set (l := report_results data) in *.
  set (s := mkSummary _ _ _ _ _ _).
  destruct (JunitFacts.mapM_total (Junit.testcase s) (map spec_record_of l))
    as [tcs E].
  { apply Forall_forall. intros rec Hin.
    apply in_map_iff in Hin as (p & <- & Hp).
    apply JunitFacts.testcase_total. cbn [spec_record_of sr_duration_ms].
    unfold result_nodes in Hsmall. rewrite Forall_forall in Hsmall.
    apply Hsmall, in_map, Hp. }
  rewrite E. cbn [Result.bind]. eexists. split; [reflexivity|].
  cbn [Junit.children Junit.attrib Junit.attr String.eqb Ascii.eqb
       Bool.eqb].
  apply JunitFacts.mapM_Forall2 in E.
  assert (Hlen : List.length tcs = List.length l).
  { apply Forall2_length in E. rewrite length_map in E. congruence. }
  assert (Hf : forall name status (f : Spec * Result -> bool),
             (forall p, (sr_status (spec_record_of p) =? status) = f p) ->
             (forall rec child, Junit.testcase s rec = Return child ->
                has_child name child = (sr_status rec =? status)) ->
             List.length (filter (has_child name) tcs)
             = List.length (filter f l)).
  { intros name status f Hrec Hchild.
    rewrite (ExtraJunitFacts.Forall2_filter_length
               (fun rec => sr_status rec =? status) (has_child name)
               (map spec_record_of l) tcs).
    - rewrite filter_map_swap, length_map. f_equal.
      apply filter_ext. exact Hrec.
    - eapply Forall2_impl; [|exact E]. intros rec child H.
      apply Hchild, H. }
  repeat split.
  - rewrite Hlen. apply SummarizerFacts.length_report_results.
  - rewrite Hlen. reflexivity.
  - unfold count_with_child, countZ. do 3 f_equal. symmetry.
    apply (Hf "failure" "failed").
    + apply ExtraSummarizerFacts.spec_record_failed.
    + intros rec child H.
      apply (ExtraJunitFacts.testcase_children _ _ _ H).
  - do 2 f_equal. unfold countZ, count_status, result_nodes.
    rewrite <- ExtraSummarizerFacts.filter_status. do 2 f_equal.
    apply filter_ext. intros [sp r].
    unfold is_skipped, Summarizer.status_in_skipped, Summarizer.status_is.
    cbn [snd existsb]. destruct (res_status r);
      rewrite ?orb_false_r, ?orb_assoc; reflexivity.
  - unfold count_with_child, count_status, result_nodes.
    rewrite <- ExtraSummarizerFacts.filter_status. f_equal.
    rewrite (Hf "skipped" "skipped"
               (fun p => Summarizer.status_is (res_status (snd p)) "skipped")).
    + f_equal. apply filter_ext. intros [sp r].
      unfold Summarizer.status_is. cbn [snd existsb].
      destruct (res_status r); rewrite ?orb_false_r; reflexivity.
    + apply ExtraJunitFacts.spec_record_skipped.
    + intros rec child H.
      apply (ExtraJunitFacts.testcase_children _ _ _ H).
Qed.

Lemma X12_junit_counters_witness :
  exists tree,
    Junit.write_junit_xml "2024-01-01T00:00:00"
      (Summarizer.summarize_playwright_json skipped_report) = Return tree
    /\ count_with_child "skipped" (Junit.children tree) = 1%Z
    /\ Junit.attr "skipped" (Junit.attrib tree) = Some "3".
Proof.
  destruct (X12_junit_counters_and_children "2024-01-01T00:00:00"
              skipped_report)
    as (tree & E & _ & _ & _ & Hattr & Hcount).
  - repeat (constructor; [reflexivity|]). constructor.
  - exists tree. split; [exact E|]. split; [exact Hcount|exact Hattr].
Defined.

(** X13.  A duration of [1000 * 2^1024] ms or more, in magnitude, in any
    [specs] entry makes the JUnit renderer raise [OverflowError]: no tree
    is built. *)
Theorem X13_junit_overflow :
  forall utcnow summary,
    Exists (fun rec => beyond_float (sr_duration_ms rec)) (specs summary) ->
    Junit.write_junit_xml utcnow summary = Raise OverflowError.
Proof.
  intros utcnow summary H. unfold Junit.write_junit_xml.
  rewrite (ExtraJunitFacts.mapM_testcase_overflow summary _ H). reflexivity.
Qed.

Lemma X13_junit_overflow_witness :
  Junit.write_junit_xml "2024-01-01T00:00:00" overflowing_summary
  = Raise OverflowError.
Proof.
  apply X13_junit_overflow.
  apply Exists_cons_tl, Exists_cons_hd.
  unfold beyond_float. cbn [sr_duration_ms].
  intro H. vm_compute in H. discriminate H.
Defined.

(* ================================================================== *)
(** * Further properties of the smoke check *)
(* ================================================================== *)

(** X14.  When one of the three required variables is unset or empty the
    script returns 2 after one line on stderr, and sends no request. *)
Theorem X14_missing_configuration :
  forall network env,
    ~ configured env ->
    Rls.run network env
    = (Return 2%Z,
       Rls.mkWorld 0
         [(Rls.Stderr, "Missing SUPABASE_URL/ANON_KEY/SERVICE_ROLE_KEY")]).
Proof. intros. now apply ExtraRlsFacts.run_unconfigured. Qed.

Lemma X14_missing_configuration_witness :
  Rls.run (network_of (Return sample_rows) (Return sample_rows))
          (Rls.mkEnv (Some "https://db.example.org") (Some "")
                     (Some "service-key") None None)
  = (Return 2%Z,
     Rls.mkWorld 0
       [(Rls.Stderr, "Missing SUPABASE_URL/ANON_KEY/SERVICE_ROLE_KEY")]).
Proof.
  apply X14_missing_configuration.
  intros (_ & H & _). discriminate H.
Defined.

(** X15.  When both requests are answered and the restricted answer has
    more rows than the elevated one (an answer that is no list counting
    for none), the script returns 1 after a [FAIL] line on stderr. *)
Theorem X15_more_rows_than_elevated :
  forall network env anon_data sr_data,
    configured env ->
    restricted_response network env = Return anon_data ->
    elevated_response network env = Return sr_data ->
    Rls.row_count sr_data < Rls.row_count anon_data ->
    Rls.run network env
    = (Return 1%Z,
       Rls.mkWorld 2
         [(Rls.Stderr,
           ("[FAIL] anon sees more rows ("
              ++ Py.str (Z.of_nat (Rls.row_count anon_data))
              ++ ") than service_role ("
              ++ Py.str (Z.of_nat (Rls.row_count sr_data)) ++ ")")%string)]).
Proof.
  intros network env anon_data sr_data Hconf Ha Hs Hlt.
  rewrite (RlsFacts.run_configured network env Hconf), Ha, Hs.
  unfold Rls.verdict. apply Nat.ltb_lt in Hlt. rewrite Hlt. reflexivity.
Qed.

Lemma X15_more_rows_witness :
  fst (Rls.run (network_of (Return sample_rows)
                           (Return (Rls.JDict [("message", Rls.JStr "?")])))
               sample_env) = Return 1%Z.
Proof.
  rewrite (X15_more_rows_than_elevated
             (network_of (Return sample_rows)
                         (Return (Rls.JDict [("message", Rls.JStr "?")])))
             sample_env sample_rows (Rls.JDict [("message", Rls.JStr "?")])
             (conj eq_refl (conj eq_refl eq_refl)) eq_refl eq_refl).
  - reflexivity.
  - cbn. lia.
Defined.

(** X16.  The classification check looks at the first row only: when
    both requests are answered, the restricted answer has no more rows
    than the elevated one and its first row is no object or lacks
    [privacy_level], the script returns 0 with the [OK] line, whatever
    the other rows hold. *)
Theorem X16_first_row_decides_the_check :
  forall network env anon_data sr_data,
    configured env ->
    restricted_response network env = Return anon_data ->
    elevated_response network env = Return sr_data ->
    Rls.row_count anon_data <= Rls.row_count sr_data ->
    first_row_unclassified anon_data ->
    Rls.run network env
    = (Return 0%Z, Rls.mkWorld 2 [ok_line anon_data sr_data]).
Proof.
  intros network env anon_data sr_data Hconf Ha Hs Hle Hfirst.
  rewrite (RlsFacts.run_configured network env Hconf), Ha, Hs.
  unfold Rls.verdict.
  replace (_ <? _)%nat with false by (symmetry; apply Nat.ltb_ge; exact Hle).
  rewrite (ExtraRlsFacts.first_row_unclassified_false _ Hfirst).
  reflexivity.
Qed.

Lemma X16_first_row_witness :
  Exists private_row (Rls.rows_of unclassified_rows)
  /\ fst (Rls.run (network_of (Return unclassified_rows)
                              (Return unclassified_rows))
                  sample_env) = Return 0%Z.
Proof.
  split.
  - apply Exists_cons_tl, Exists_cons_hd. eexists; split; reflexivity.
  - rewrite (X16_first_row_decides_the_check
               (network_of (Return unclassified_rows)
                           (Return unclassified_rows))
               sample_env unclassified_rows unclassified_rows
               (conj eq_refl (conj eq_refl eq_refl)) eq_refl eq_refl).
    + reflexivity.
    + cbn. lia.
    + intros items rest [= <- _]. reflexivity.
Defined.

(** X17.  When both requests are answered, the restricted answer is a
    list of objects carrying [privacy_level], none of them "private", and
    has no more rows than the elevated one, the script returns 0 with the
    [OK] line. *)
Theorem X17_no_private_row_passes :
  forall network env rows sr_data,
    configured env ->
    restricted_response network env = Return (Rls.JList rows) ->
    elevated_response network env = Return sr_data ->
    List.length rows <= Rls.row_count sr_data ->
    Forall classified_row rows ->
    Forall (fun r => ~ private_row r) rows ->
    Rls.run network env
    = (Return 0%Z, Rls.mkWorld 2 [ok_line (Rls.JList rows) sr_data]).
Proof.
  intros network env rows sr_data Hconf Ha Hs Hle Hall Hnone.
  rewrite (RlsFacts.run_configured network env Hconf), Ha, Hs.
  unfold Rls.verdict. cbn [Rls.row_count].
  replace (_ <? _)%nat with false by (symmetry; apply Nat.ltb_ge; exact Hle).
  destruct (Rls.first_row_has_privacy_level (Rls.JList rows));
    [|reflexivity].
  cbn [Rls.rows_of]. unfold Rls.bind at 1. unfold Rls.lift.
  rewrite (ExtraRlsFacts.private_rows_none rows Hall Hnone). reflexivity.
Qed.

Lemma X17_no_private_row_witness :
  fst (Rls.run (network_of (Return public_rows) (Return sample_rows))
               sample_env) = Return 0%Z.
Proof.
  rewrite (X17_no_private_row_passes
             (network_of (Return public_rows) (Return sample_rows))
             sample_env [row 1 "public"; row 3 "friends"] sample_rows
             (conj eq_refl (conj eq_refl eq_refl)) eq_refl eq_refl).
  - reflexivity.
  - cbn. lia.
  - repeat constructor; eexists; split; reflexivity.
  - repeat constructor; intros (items & [= <-] & H); discriminate H.
Defined.

(** X18.  When the first restricted row is an object carrying
    [privacy_level] and some row is no object, the scan of the rows
    raises [AttributeError], which nothing catches: the script prints no
    verdict and the process ends with status 1. *)
Theorem X18_row_that_is_no_object_raises :
  forall network env rows sr_data,
    configured env ->
    restricted_response network env = Return (Rls.JList rows) ->
    elevated_response network env = Return sr_data ->
    List.length rows <= Rls.row_count sr_data ->
    Rls.first_row_has_privacy_level (Rls.JList rows) = true ->
    Exists not_object rows ->
    Rls.run network env = (Raise AttributeError, Rls.mkWorld 2 [])
    /\ Rls.exit_status (fst (Rls.run network env)) = 1%Z.
Proof.
  intros network env rows sr_data Hconf Ha Hs Hle Hfirst Hex.
  rewrite (RlsFacts.run_configured network env Hconf), Ha, Hs.
  unfold Rls.verdict. cbn [Rls.row_count].
  replace (_ <? _)%nat with false by (symmetry; apply Nat.ltb_ge; exact Hle).
  rewrite Hfirst. cbn [Rls.rows_of]. unfold Rls.bind at 1. unfold Rls.lift.
  rewrite (ExtraRlsFacts.private_rows_not_object rows Hex).
  split; reflexivity.
Qed.

Lemma X18_row_that_is_no_object_witness :
  Rls.run (network_of (Return mixed_rows) (Return sample_rows)) sample_env
  = (Raise AttributeError, Rls.mkWorld 2 []).
Proof.
  apply (X18_row_that_is_no_object_raises
           (network_of (Return mixed_rows) (Return sample_rows))
           sample_env [row 1 "public"; Rls.JInt 2] sample_rows
           (conj eq_refl (conj eq_refl eq_refl)) eq_refl eq_refl).
  - cbn. lia.
  - reflexivity.
  - apply Exists_cons_tl, Exists_cons_hd. intros items H. discriminate H.
Defined.

(** X19.  Whatever the network answers, the script sends at most two
    requests and none without configuration; when [main] returns, the
    code is 0, 1 or 2, it is 2 exactly without configuration, and one
    line has been printed: [OK] on stdout or [WARN] on stderr for 0,
    [FAIL] on stderr for 1; when [main] raises, nothing has been
    printed. *)
Theorem X19_exit_codes_requests_and_output :
  forall network env,
    let r := fst (Rls.run network env) in
    let w := snd (Rls.run network env) in
    Rls.requests w <= 2
    /\ (Rls.requests w = 0 <-> ~ configured env)
    /\ (r = Return 2%Z <-> ~ configured env)
    /\ (forall c, r = Return c ->
                  (c = 0%Z \/ c = 1%Z \/ c = 2%Z)
                  /\ report_line c (Rls.output w))
    /\ (forall e, r = Raise e -> Rls.output w = []).
Proof.
  intros network env. cbv zeta.
  destruct (ExtraRlsFacts.configured_dec env) as [Hconf|Hno].
  - rewrite (RlsFacts.run_configured network env Hconf).
    assert (Hv : forall anon sr,
               let v := Rls.verdict anon sr (Rls.mkWorld 2 []) in
               Rls.requests (snd v) <= 2
               /\ (Rls.requests (snd v) = 0 <-> ~ configured env)
               /\ (fst v = Return 2%Z <-> ~ configured env)
               /\ (forall c, fst v = Return c ->
                             (c = 0%Z \/ c = 1%Z \/ c = 2%Z)
                             /\ report_line c (Rls.output (snd v)))
               /\ (forall e, fst v = Raise e -> Rls.output (snd v) = [])).
    { intros anon sr. cbv zeta.
      destruct (ExtraRlsFacts.verdict_shape anon sr (Rls.mkWorld 2 []))
        as [Hreq [(c & line & Hr & Ho & Hc & Hline)|[Hr Ho]]];
        rewrite Hreq, Hr, Ho; cbn [Rls.requests Rls.output app].
      - split; [lia|]. split; [split; [discriminate|contradiction]|].
        split; [split; [intros [= E]; congruence|contradiction]|].
        split; [|discriminate].
        intros c' [= <-]. split; [|exact Hline].
        destruct Hline as (l & [[-> _]|[[-> _]|[-> _]]]); auto.
      - split; [lia|]. split; [split; [discriminate|contradiction]|].
        split; [split; [discriminate|contradiction]|].
        split; [discriminate|reflexivity]. }
    destruct (restricted_response network env) as [d0|[e0| | | | | | |]];
      try (destruct (elevated_response network env)
             as [d1|[e1| | | | | | |]]; try apply Hv);
      cbn [fst snd Rls.requests Rls.output];
      (split; [lia|]);
      (split; [split; [discriminate|contradiction]|]);
      (split; [split; [discriminate|contradiction]|]);
      (split; [discriminate|reflexivity]).
  - rewrite (ExtraRlsFacts.run_unconfigured network env Hno).
    cbn [fst snd Rls.requests Rls.output].
    split; [lia|]. split; [tauto|]. split; [tauto|].
    split; [|discriminate].
    intros c [= <-]. split; [auto|].
    eexists. right. right. repeat split.
Qed.

(* ================================================================== *)
(** * Properties of the orchestrator *)
(* ================================================================== *)

(** X20.  [run_steps] is fail-fast: at the first step whose command does
    not return 0 it raises [SystemExit] with that return code, having run
    and echoed the steps up to that one and none of the later ones. *)
Theorem X20_run_steps_fail_fast :
  forall popen steps w k code,
    fails_at popen (Os.executed w) (Py.get steps []) k code ->
    SupabaseUtils.run_steps popen steps w
    = (Os.SystemExit code,
       Os.mkWorld
         (Os.executed w ++ firstn (S k) (Py.get steps []))
         (Os.printed w ++ map echo (firstn (S k) (Py.get steps [])))
         (Os.made w) (Os.written w)).
Proof.
  intros popen steps w k code H. unfold SupabaseUtils.run_steps.
  apply StepsFacts.run_each_fail, H.
Qed.

Lemma X20_run_steps_fail_fast_witness :
  SupabaseUtils.run_steps (m_popen sample_machine)
    (Some ["make db"; "exit 3"; "make seed"]) Os.start
  = (Os.SystemExit 3%Z,
     Os.mkWorld ["make db"; "exit 3"] [echo "make db"; echo "exit 3"] [] []).
Proof.
  apply (X20_run_steps_fail_fast (m_popen sample_machine)
           (Some ["make db"; "exit 3"; "make seed"]) Os.start 1 3%Z).
  repeat split.
  - cbn. lia.
  - intros j Hj. destruct j as [|j]; [reflexivity|lia].
  - discriminate.
Defined.

(** X21.  When every step returns 0, [run_steps] returns having run and
    echoed all the steps in order; without steps ([None] or the empty
    list) it does nothing. *)
Theorem X21_run_steps_all_succeed :
  forall popen steps w,
    all_succeed popen (Os.executed w) (Py.get steps []) ->
    SupabaseUtils.run_steps popen steps w
    = (Os.Done tt,
       Os.mkWorld (Os.executed w ++ Py.get steps [])
                  (Os.printed w ++ map echo (Py.get steps []))
                  (Os.made w) (Os.written w)).
Proof.
  intros popen steps w H. unfold SupabaseUtils.run_steps.
  apply StepsFacts.run_each_succeed, H.
Qed.

Lemma X21_run_steps_all_succeed_witness :
  SupabaseUtils.run_steps (m_popen sample_machine)
    (Some ["make db"; "make seed"]) Os.start
  = (Os.Done tt,
     Os.mkWorld ["make db"; "make seed"] [echo "make db"; echo "make seed"]
                [] [])
  /\ SupabaseUtils.run_steps (m_popen sample_machine) None Os.start
     = (Os.Done tt, Os.start).
Proof.
  split.
  - apply (X21_run_steps_all_succeed (m_popen sample_machine)
             (Some ["make db"; "make seed"]) Os.start).
    intros k Hk. destruct k as [|[|k]]; [reflexivity|reflexivity|].
    cbn in Hk. lia.
  - apply (X21_run_steps_all_succeed (m_popen sample_machine) None Os.start).
    intros k Hk. cbn in Hk. lia.
Defined.

(** X22.  Whatever the commands return, [run_steps] runs a prefix of the
    steps, in order, echoing each, makes no directory and writes no file;
    it either returns after the last step or raises [SystemExit] with the
    return code, never 0, of the last command it ran; it raises nothing
    else. *)
Theorem X22_run_steps_runs_a_prefix :
  forall popen steps w,
    exists n,
      n <= List.length (Py.get steps [])
      /\ snd (SupabaseUtils.run_steps popen steps w)
         = Os.mkWorld
             (Os.executed w ++ firstn n (Py.get steps []))
             (Os.printed w ++ map echo (firstn n (Py.get steps [])))
             (Os.made w) (Os.written w)
      /\ (fst (SupabaseUtils.run_steps popen steps w) = Os.Done tt
          /\ n = List.length (Py.get steps [])
          \/ exists code,
               fst (SupabaseUtils.run_steps popen steps w)
               = Os.SystemExit code
               /\ code <> 0%Z /\ 0 < n
               /\ code = popen (Os.executed w
                                  ++ firstn (n - 1) (Py.get steps []))
                               (nth (n - 1) (Py.get steps []) "")).
Proof.
  intros popen steps w. unfold SupabaseUtils.run_steps.
  apply StepsFacts.run_each_shape.
Qed.

(** X23.  In [cli.main] a failing pre-step ends the run with its return
    code before the tests are started: only the pre-steps up to the
    failing one have been run, and no file has been written. *)
Theorem X23_cli_pre_step_failure_aborts :
  forall m config k code,
    fails_at (m_popen m) [] (Cli.pre_of (Cli.effective config)) k code ->
    run_main m config
    = (Os.SystemExit code,
       Os.mkWorld
         (firstn (S k) (Cli.pre_of (Cli.effective config)))
         (phase_lines "pre-steps" (Cli.pre_of (Cli.effective config)) (S k))
         [Cli.artifacts_of (m_Path m) (Cli.effective config)] []).
Proof. intros. now apply CliFacts.main_pre_fail. Qed.

Lemma X23_cli_pre_step_failure_witness :
  fst (run_main sample_machine (sample_config ["make db"; "exit 3"] []))
  = Os.SystemExit 3%Z
  /\ Os.executed
       (snd (run_main sample_machine
               (sample_config ["make db"; "exit 3"] [])))
     = ["make db"; "exit 3"].
Proof.
  rewrite (X23_cli_pre_step_failure_aborts sample_machine
             (sample_config ["make db"; "exit 3"] []) 1 3%Z).
  - split; reflexivity.
  - repeat split.
    + cbn. lia.
    + intros j Hj. destruct j as [|j]; [reflexivity|lia].
    + discriminate.
Defined.

(** X24.  When the pre-steps succeed and the report file is neither at
    the configured place nor under the working directory, [cli.main]
    exits with code 2 after an error line on stderr, whatever the test
    command returned: nothing is written and no post-step is run. *)
Theorem X24_cli_report_missing_exits_2 :
  forall m config,
    let cfg := Cli.effective config in
    all_succeed (m_popen m) [] (Cli.pre_of cfg) ->
    report_missing m cfg ->
    fst (run_main m config) = Os.SystemExit 2%Z
    /\ Os.executed (snd (run_main m config)) = history_after_test m cfg
    /\ Os.written (snd (run_main m config)) = []
    /\ last (Os.printed (snd (run_main m config))) (Os.Stdout, "")
       = (Os.Stderr, "ERROR: Could not find Playwright JSON report.").
Proof.
  intros m config cfg Hpre Hmiss.
  destruct (CliFacts.main_pre_ok m config Hpre) as [lines ->].
  fold cfg. rewrite (CliFacts.aggregate_missing m cfg lines
             [Cli.artifacts_of (m_Path m) cfg] Hmiss).
  cbn [fst snd Os.executed Os.written Os.printed].
  repeat split. apply last_last.
Qed.

Lemma X24_cli_report_missing_witness :
  fst (run_main machine_without_report (sample_config ["make db"] ["make clean"]))
  = Os.SystemExit 2%Z
  /\ Os.executed
       (snd (run_main machine_without_report
               (sample_config ["make db"] ["make clean"])))
     = ["make db";
        "cd . && npx playwright test --reporter=json=e2e-audit-artifacts/playwright-report.json"].
Proof.
  destruct (X24_cli_report_missing_exits_2 machine_without_report
              (sample_config ["make db"] ["make clean"]))
    as (H1 & H2 & _).
  - intros k Hk. destruct k as [|k]; [reflexivity|]. cbn in Hk. lia.
  - split; reflexivity.
  - split; [exact H1|exact H2].
Defined.

(** X25.  When the pre-steps succeed, the report is found and read, its
    durations are below [2^52] ms and the post-steps succeed, [cli.main]
    writes SUMMARY.md and junit.xml, runs the post-steps after the test
    command, and exits with code 1 exactly when the summary has a failed
    result, returning normally otherwise, whatever the test command
    returned. *)
Theorem X25_cli_exit_code_follows_failed :
  forall m config p data,
    let cfg := Cli.effective config in
    let s := Summarizer.summarize_playwright_json data in
    all_succeed (m_popen m) [] (Cli.pre_of cfg) ->
    report_found m cfg p ->
    m_load_report m (history_after_test m cfg) p = Return data ->
    Forall (fun r => (Z.abs (Py.get (res_duration r) 0) < 2 ^ 52)%Z)
           (result_nodes data) ->
    all_succeed (m_popen m) (history_after_test m cfg) (Cli.post_of cfg) ->
    fst (run_main m config)
    = (if (0 <? failed s)%Z then Os.SystemExit 1%Z else Os.Done tt)
    /\ Os.executed (snd (run_main m config))
       = history_after_test m cfg ++ Cli.post_of cfg
    /\ exists tree,
         Junit.write_junit_xml (m_utcnow m) s = Return tree
         /\ Os.written (snd (run_main m config))
            = [(m_joinpath m (Cli.artifacts_of (m_Path m) cfg) "SUMMARY.md",
                Os.Text (Markdown.write_markdown s));
               (m_joinpath m (Cli.artifacts_of (m_Path m) cfg) "junit.xml",
                Os.Xml tree)].
Proof.
  intros m config p data cfg s Hpre Hfound Hload Hsmall Hpost.
  destruct (CliFacts.main_pre_ok m config Hpre) as [lines ->]. fold cfg.
  destruct (ExtraJunitFacts.write_junit_xml_total (m_utcnow m) data Hsmall)
    as [tree Htree].
  destruct (CliFacts.aggregate_found m cfg p data tree lines
              [Cli.artifacts_of (m_Path m) cfg] Hfound Hload Htree) as [lines' ->].
  unfold Os.bind. rewrite CliFacts.run_phase_succeed by exact Hpost.
  fold s. cbn [Os.executed Os.printed Os.made Os.written].
  destruct (0 <? failed s)%Z; cbn [fst snd Os.executed Os.written];
    (split; [reflexivity|]); (split; [reflexivity|]);
    exists tree; split; [exact Htree|reflexivity|exact Htree|reflexivity].
Qed.

Lemma X25_cli_exit_code_witness :
  fst (run_main sample_machine (sample_config ["make db"] ["make clean"]))
  = Os.SystemExit 1%Z
  /\ Os.executed
       (snd (run_main sample_machine
               (sample_config ["make db"] ["make clean"])))
     = ["make db";
        "cd . && npx playwright test --reporter=json=e2e-audit-artifacts/playwright-report.json";
        "make clean"].
Proof.
  destruct (X25_cli_exit_code_follows_failed sample_machine
              (sample_config ["make db"] ["make clean"])
              "e2e-audit-artifacts/playwright-report.json" sample_report)
    as (H1 & H2 & _).
  - intros k Hk. destruct k as [|k]; [reflexivity|]. cbn in Hk. lia.
  - left. split; reflexivity.
  - reflexivity.
  - repeat (constructor; [reflexivity|]). constructor.
  - intros k Hk. destruct k as [|k]; [reflexivity|]. cbn in Hk. lia.
  - split; [exact H1|exact H2].
Defined.

(** X26.  A failing post-step ends [cli.main] with its return code, also
    when the summary has failed results: the code of the step replaces
    the code 1; both artifacts have been written before. *)
Theorem X26_cli_post_step_failure_wins :
  forall m config p data k code,
    let cfg := Cli.effective config in
    let s := Summarizer.summarize_playwright_json data in
    all_succeed (m_popen m) [] (Cli.pre_of cfg) ->
    report_found m cfg p ->
    m_load_report m (history_after_test m cfg) p = Return data ->
    Forall (fun r => (Z.abs (Py.get (res_duration r) 0) < 2 ^ 52)%Z)
           (result_nodes data) ->
    fails_at (m_popen m) (history_after_test m cfg) (Cli.post_of cfg)
             k code ->
    fst (run_main m config) = Os.SystemExit code
    /\ Os.executed (snd (run_main m config))
       = history_after_test m cfg ++ firstn (S k) (Cli.post_of cfg)
    /\ map fst (Os.written (snd (run_main m config)))
       = [m_joinpath m (Cli.artifacts_of (m_Path m) cfg) "SUMMARY.md";
          m_joinpath m (Cli.artifacts_of (m_Path m) cfg) "junit.xml"].
Proof.
  intros m config p data k code cfg s Hpre Hfound Hload Hsmall Hpost.
  destruct (CliFacts.main_pre_ok m config Hpre) as [lines ->]. fold cfg.
  destruct (ExtraJunitFacts.write_junit_xml_total (m_utcnow m) data Hsmall)
    as [tree Htree].
  destruct (CliFacts.aggregate_found m cfg p data tree lines
              [Cli.artifacts_of (m_Path m) cfg] Hfound Hload Htree) as [lines' ->].
  unfold Os.bind.
  rewrite (CliFacts.run_phase_fail m _ _ _ k code) by exact Hpost.
  repeat split.
Qed.

Lemma X26_cli_post_step_failure_witness :
  fst (run_main sample_machine (sample_config [] ["exit 3"; "make clean"]))
  = Os.SystemExit 3%Z.
Proof.
  destruct (X26_cli_post_step_failure_wins sample_machine
              (sample_config [] ["exit 3"; "make clean"])
              "e2e-audit-artifacts/playwright-report.json" sample_report
              0 3%Z)
    as (H1 & _).
  - intros k Hk. cbn in Hk. lia.
  - left. split; reflexivity.
  - reflexivity.
  - repeat (constructor; [reflexivity|]). constructor.
  - repeat split.
    + cbn. lia.
    + intros j Hj. lia.
    + discriminate.
  - exact H1.
Defined.

(** X27.  When the report file is found but cannot be read as JSON, the
    exception leaves [cli.main] uncaught: no artifact is written and no
    post-step is run. *)
Theorem X27_cli_unreadable_report_propagates :
  forall m config p e,
    let cfg := Cli.effective config in
    all_succeed (m_popen m) [] (Cli.pre_of cfg) ->
    report_found m cfg p ->
    m_load_report m (history_after_test m cfg) p = Raise e ->
    fst (run_main m config) = Os.Uncaught e
    /\ Os.executed (snd (run_main m config)) = history_after_test m cfg
    /\ Os.written (snd (run_main m config)) = [].
Proof.
  intros m config p e cfg Hpre Hfound Hload.
  destruct (CliFacts.main_pre_ok m config Hpre) as [lines ->]. fold cfg.
  rewrite (CliFacts.aggregate_unreadable m cfg p e lines
             [Cli.artifacts_of (m_Path m) cfg] Hfound Hload).
  repeat split.
Qed.

Lemma X27_cli_unreadable_report_witness :
  fst (run_main machine_with_broken_report
         (sample_config [] ["make clean"]))
  = Os.Uncaught JSONDecodeError.
Proof.
  destruct (X27_cli_unreadable_report_propagates machine_with_broken_report
              (sample_config [] ["make clean"])
              "e2e-audit-artifacts/playwright-report.json" JSONDecodeError)
    as (H1 & _).
  - intros k Hk. cbn in Hk. lia.
  - left. split; reflexivity.
  - reflexivity.
  - exact H1.
Defined.

Example contains_examples :
  Os.contains "--reporter=" Cli.default_cmd = true
  /\ Os.contains "json=" Cli.default_cmd = false
  /\ Os.contains "json=" "npx playwright test --reporter=json=out.json" = true
  /\ Os.contains "" "" = true
  /\ Os.contains "ab" "a" = false
  /\ Os.contains "b c" "a b c" = true.
Proof. repeat split. Qed.
